(** * PaddleScience: the cylinder time-marching driver and the visualizers

    A shallow embedding of
      - examples/cylinder/3d_unsteady_discrete/optimize/cylinder3d_unsteady_optimize.py
      - ppsci/visualize/visualizer.py
    Python dictionaries that are only read by key are finite maps ([gmap]);
    dictionaries whose key order is observed (constructor arguments) are
    association lists.  Exceptions raised by the Python code itself are values
    of [exn]; the file system, the network, the executor and the plot writers
    are explicit state or recorded calls. *)

From Stdlib Require Import ZArith Lia.
From stdpp Require Import base option list strings pretty gmap.

Open Scope Z_scope.
Open Scope string_scope.
Open Scope list_scope.
Open Scope stdpp_scope.

(** ** Scalars and exceptions *)

(** The element type of the arrays ([np.float32] in the scripts) and the
    operations the loss formula applies to it.  No algebraic law is assumed:
    floating-point addition is not associative, so every statement below keeps
    the association the code has. *)
Class Scalar (A : Type) := {
  zero : A;
  add : A → A → A;
  sub : A → A → A;
  mul : A → A → A;
  sqrt : A → A;
  of_Z : Z → A;
  astype_float32 : A → A
}.

(** Integers as scalars, to run the definitions on concrete inputs. *)
#[export] Instance Z_Scalar : Scalar Z := {|
  zero := 0;
  add := Z.add;
  sub := Z.sub;
  mul := Z.mul;
  sqrt := Z.sqrt;
  of_Z := fun z => z;
  astype_float32 := fun z => z
|}.

(** The Python exceptions the modelled code can raise. *)
Inductive exn : Type :=
| FileNotFoundError (path : string)
| URLError (url : string)
| ValueError (what : string)
| NameError (name : string)
| IndexError
| KeyError (key : string)
| NotADirectoryError (path : string)
| IsADirectoryError (path : string)
| BadZipFile (path : string)
| AttributeError (name : string)
| UnsupportedArrayRank.

(** ** Two-dimensional arrays *)

Module Array2D.
Section Array2D.
Context {A : Type}.

(** A 2-D array, row major: [real_data], [current_interior], a network output. *)
Definition matrix : Type := list (list A).

(** [m[:, lo:hi]] *)
Definition slice_cols (lo hi : nat) (m : list (list A)) : list (list A) :=
  (fun row => take (hi - lo) (drop lo row)) <$> m.

(** [np.concatenate([a, b], axis=1)] on arrays with the same number of rows. *)
Definition hstack (a b : list (list A)) : list (list A) :=
  zip_with app a b.

(** [m.shape == (r, c)] *)
Definition has_shape (r c : nat) (m : list (list A)) : Prop :=
  length m = r ∧ Forall (fun row => length row = c) m.

(** [np.zeros((r, c))] over an arbitrary fill value. *)
Definition full (r c : nat) (x : A) : list (list A) :=
  replicate r (replicate c x).

(** Elementwise application: [m.astype(...)] *)
Definition map2d (f : A → A) (m : list (list A)) : list (list A) :=
  (fun row : list A => f <$> row) <$> m.

Lemma slice_cols_rows lo hi (m : list (list A)) : length (slice_cols lo hi m) = length m.
Proof. unfold slice_cols. by rewrite length_fmap. Qed.

Lemma slice_cols_shape lo hi r c (m : list (list A)) :
  has_shape r c m → (hi ≤ c)%nat → has_shape r (hi - lo) (slice_cols lo hi m).
Proof.
  intros [Hr Hc] Hle. split; [by rewrite slice_cols_rows|].
  unfold slice_cols. apply Forall_fmap.
  eapply Forall_impl; [exact Hc|].
  intros row Hrow. simpl in *. rewrite length_take, length_drop.
  rewrite Hrow. lia.
Qed.

Lemma full_shape r c x : has_shape r c (full r c x).
Proof.
  split; [apply length_replicate|].
  unfold full. apply Forall_replicate, length_replicate.
Qed.

Lemma map2d_shape (f : A → A) r c (m : list (list A)) :
  has_shape r c m → has_shape r c (map2d f m).
Proof.
  intros [Hr Hc]. unfold map2d. split; [by rewrite length_fmap|].
  apply Forall_fmap. eapply Forall_impl; [exact Hc|].
  intros row Hrow. simpl. by rewrite length_fmap.
Qed.

Lemma hstack_slices n k (m : list (list A)) :
  Forall (fun row => length row ≤ n + k)%nat m →
  hstack (slice_cols 0 n m) (slice_cols n (n + k) m) = m.
Proof.
  unfold hstack, slice_cols. induction 1 as [|row rows Hrow _ IH]; [done|].
  simpl. f_equal; [|exact IH].
  rewrite drop_0, Nat.sub_0_r.
  replace (n + k - n)%nat with k by lia.
  rewrite (take_ge (drop n row)) by (rewrite length_drop; lia).
  apply take_drop.
Qed.

(** [m[:, 0:n]] keeps the first [n] entries of every row. *)
Lemma slice_cols_first n (m : list (list A)) :
  slice_cols 0 n m = (fun row : list A => take n row) <$> m.
Proof.
  unfold slice_cols. apply list_fmap_ext. intros _ row _. simpl.
  by rewrite drop_0, Nat.sub_0_r.
Qed.

Lemma slice_cols_map2d (f : A → A) lo hi (m : list (list A)) :
  slice_cols lo hi (map2d f m) = map2d f (slice_cols lo hi m).
Proof.
  unfold slice_cols, map2d. rewrite <- !list_fmap_compose. apply list_fmap_ext.
  intros _ row _. simpl. by rewrite fmap_take, fmap_drop.
Qed.

End Array2D.
End Array2D.

(** ** Effects: state threaded through calls that may raise *)

Module Eff.
Section Eff.
Context {S : Type}.

(** A computation over the state [S] that returns a value or raises. *)
Definition M (X : Type) : Type := S → (exn + X) * S.

Definition ret {X : Type} (x : X) : M X := fun s => (inr x, s).

Definition raise {X : Type} (e : exn) : M X := fun s => (inl e, s).

Definition bind {X Y : Type} (m : M X) (k : X → M Y) : M Y :=
  fun s =>
    match m s with
    | (inr x, s') => k x s'
    | (inl e, s') => (inl e, s')
    end.

Definition gets {X : Type} (f : S → X) : M X := fun s => (inr (f s), s).

Definition modify (f : S → S) : M unit := fun s => (inr tt, f s).

(** The value a run returned, if it did not raise. *)
Definition returned {X : Type} (r : (exn + X) * S) : option X :=
  match r.1 with inr x => Some x | inl _ => None end.

Lemma bind_inr {X Y : Type} (m : M X) (k : X → M Y) s y s2 :
  bind m k s = (inr y, s2) →
  ∃ x s1, m s = (inr x, s1) ∧ k x s1 = (inr y, s2).
Proof.
  unfold bind. destruct (m s) as [[e|x] s1]; [discriminate|]. eauto.
Qed.

Lemma bind_step {X Y : Type} (m : M X) (k : X → M Y) s x s1 :
  m s = (inr x, s1) → bind m k s = k x s1.
Proof. unfold bind. by intros ->. Qed.

Lemma bind_raise {X Y : Type} (m : M X) (k : X → M Y) s e s1 :
  m s = (inl e, s1) → bind m k s = (inl e, s1).
Proof. unfold bind. by intros ->. Qed.

End Eff.
End Eff.

Notation "'let*' x ':=' m 'in' k" := (Eff.bind m (fun x => k))
  (at level 10, x name, m at level 100, k at level 200).

(** ** The real-data accessor *)

Module RealData.
Import Array2D Eff.
Section RealData.
Context {A : Type} `{Scalar A}.

(** What a path holds, for the paths the script tests, opens or loads: the
    dataset directory, the files in it and the downloaded archive. *)
Inductive node : Type :=
| Directory
| NpyFile (arr : list (list A))
| ZipArchive (members : list (string * list (list A))).

(** The calls that touch the network or the disk, in the order made. *)
Inductive io_event : Type :=
| WgetDownload (url : string)
| ExtractAll (zip dir : string)
| NpLoad (path : string).

(** The working directory as far as the accessor reads it, what the dataset
    URL serves (if reachable), and the calls made so far.  Files that other
    code writes and the accessor never reads (a numbered copy [wget] makes,
    the artifacts of the driver's writers) are not entries of [files]. *)
Record fs_world : Type := {
  files : gmap string node;
  remote : string → option (list (string * list (list A)));
  io_log : list io_event
}.

Definition log_io (e : io_event) : M (S:=fs_world) unit :=
  modify (fun w => {| files := files w; remote := remote w;
                       io_log := io_log w ++ [e] |}).

Definition set_files (f : gmap string node → gmap string node)
  : M (S:=fs_world) unit :=
  modify (fun w => {| files := f (files w); remote := remote w;
                       io_log := io_log w |}).

(** ['./openfoam_cylinder_re100'], written without the leading [./]. *)
Definition data_dir : string := "openfoam_cylinder_re100".

Definition data_set : string :=
  "https://dataset.bj.bcebos.com/PaddleScience/cylinder3D/openfoam_cylinder_re100/cylinder3d_openfoam_re100.zip".

Definition zip_name : string := "cylinder3d_openfoam_re100.zip".

(** ["openfoam_cylinder_re100/flow_re100_" + str(int(time)) + "_xyzuvwp.npy"] *)
Definition npy_path (time : Z) : string :=
  "openfoam_cylinder_re100/flow_re100_" +:+ pretty time +:+ "_xyzuvwp.npy".

(** [os.path.exists] *)
Definition os_path_exists (p : string) : M (S:=fs_world) bool :=
  gets (fun w => bool_decide (is_Some (files w !! p))).

(** [wget.download(url)].  The download is saved under the archive's file
    name when that name is free.  [wget] never overwrites: when the name is
    taken, the file already there stays as it is and the download goes to a
    copy with a numbered name, which the script never opens. *)
Definition wget_download (url : string) : M (S:=fs_world) unit :=
  let* _ := log_io (WgetDownload url) in
  let* served := gets (fun w => remote w url) in
  match served with
  | None => raise (URLError url)
  | Some members =>
      set_files (fun fs =>
        match fs !! zip_name with
        | None => <[zip_name := ZipArchive members]> fs
        | Some _ => fs
        end)
  end.

(** [with zipfile.ZipFile(zip, 'r') as zip_ref: zip_ref.extractall(dir)].
    Opening the archive comes first and raises when there is no such file or
    the file is no archive; [extractall] is called only on an archive that
    opened.  Each member is written below [dir], which creates [dir]; an
    archive without members creates nothing. *)
Definition extractall (zip dir : string) : M (S:=fs_world) unit :=
  let* found := gets (fun w => files w !! zip) in
  match found with
  | Some (ZipArchive members) =>
      let* _ := log_io (ExtractAll zip dir) in
      set_files (fun fs =>
        foldr (fun '(name, arr) acc => <[dir +:+ "/" +:+ name := NpyFile arr]> acc)
              (match members with [] => fs | _ :: _ => <[dir := Directory]> fs end)
              members)
  | Some Directory => raise (IsADirectoryError zip)
  | Some (NpyFile _) => raise (BadZipFile zip)
  | None => raise (FileNotFoundError zip)
  end.

(** [np.load(path).astype] for a path inside the dataset directory, up to the
    cast.  A path that holds a directory raises [IsADirectoryError]; an
    archive loads as an [NpzFile], which has no [astype]; a path that holds
    nothing raises [NotADirectoryError] when the dataset directory's own path
    holds a regular file, and [FileNotFoundError] otherwise. *)
Definition np_load (path : string) : M (S:=fs_world) (list (list A)) :=
  let* _ := log_io (NpLoad path) in
  let* found := gets (fun w => files w !! path) in
  match found with
  | Some (NpyFile arr) => ret arr
  | Some Directory => raise (IsADirectoryError path)
  | Some (ZipArchive _) => raise (AttributeError "astype")
  | None =>
      let* parent := gets (fun w => files w !! data_dir) in
      match parent with
      | Some Directory | None => raise (FileNotFoundError path)
      | Some _ => raise (NotADirectoryError path)
      end
  end.

(** [GetRealPhyInfo(time, need_info=None)]; [time] is an integer in every
    call the driver makes, so [int(time)] is [time]. *)
Definition GetRealPhyInfo (time : Z) (need_info : option string)
  : M (S:=fs_world) (list (list A)) :=
  let* present := os_path_exists data_dir in
  let* _ := (if present then ret tt
             else let* _ := wget_download data_set in
                  extractall zip_name data_dir) in
  let* real_data := np_load (npy_path time) in
  let real_data := map2d astype_float32 real_data in
  if decide (need_info = Some "cord") then ret (slice_cols 0 3 real_data)
  else if decide (need_info = Some "physic") then ret (slice_cols 3 7 real_data)
  else ret real_data.

(** The three selections of one loaded array. *)
Definition select (need_info : option string) (real_data : list (list A))
  : list (list A) :=
  if decide (need_info = Some "cord") then slice_cols 0 3 real_data
  else if decide (need_info = Some "physic") then slice_cols 3 7 real_data
  else real_data.

(** The accessor loads once and then selects: the disk and network traffic
    does not depend on [need_info]. *)
Lemma GetRealPhyInfo_select (time : Z) (need_info : option string) (w : fs_world) :
  GetRealPhyInfo time need_info w =
  match GetRealPhyInfo time None w with
  | (inr real_data, w') => (inr (select need_info real_data), w')
  | (inl e, w') => (inl e, w')
  end.
Proof.
  unfold GetRealPhyInfo, bind.
  destruct (os_path_exists data_dir w) as [[e|present] w1]; [done|].
  destruct ((if present then ret () else _) w1) as [[e|[]] w2]; [done|].
  destruct (np_load (npy_path time) w2) as [[e|real_data] w3]; [done|].
  unfold select. repeat case_decide; simplify_eq; done.
Qed.

(** C3: for a time whose data loads, the "cord" and "physic" selections are
    columns 0:3 and 3:7 of the full seven-column record returned for [None],
    and joined column-wise they give that record back. *)
Theorem GetRealPhyInfo_cord_physic_concat
    (t : Z) (w w' : fs_world) (whole : list (list A)) :
  GetRealPhyInfo t None w = (inr whole, w') →
  Forall (fun row => length row = 7%nat) whole →
  ∃ cord physic,
    GetRealPhyInfo t (Some "cord") w = (inr cord, w') ∧
    GetRealPhyInfo t (Some "physic") w = (inr physic, w') ∧
    cord = slice_cols 0 3 whole ∧
    physic = slice_cols 3 7 whole ∧
    hstack cord physic = whole.
Proof.
  intros Hload Hcols.
  exists (slice_cols 0 3 whole), (slice_cols 3 7 whole).
  rewrite (GetRealPhyInfo_select t (Some "cord")),
          (GetRealPhyInfo_select t (Some "physic")), Hload.
  repeat split.
  apply (hstack_slices 3 4).
  eapply Forall_impl; [exact Hcols|]. intros row Hrow. simpl in *. lia.
Qed.

(** With the directory and the file in place the accessor loads and selects,
    and leaves the disk as it was. *)
Lemma GetRealPhyInfo_present (t : Z) (need_info : option string)
    (w : fs_world) (arr : list (list A)) :
  is_Some (files w !! data_dir) →
  files w !! npy_path t = Some (NpyFile arr) →
  GetRealPhyInfo t need_info w =
  (inr (select need_info (map2d astype_float32 arr)),
   {| files := files w; remote := remote w;
      io_log := io_log w ++ [NpLoad (npy_path t)] |}).
Proof.
  intros Hdir Hfile. rewrite GetRealPhyInfo_select.
  unfold GetRealPhyInfo, os_path_exists, np_load,
    log_io, bind, gets, modify, ret, raise. simpl.
  rewrite bool_decide_eq_true_2 by done. simpl. by rewrite Hfile.
Qed.

(** The calls a world has logged. *)
Definition calls_of (r : (exn + list (list A)) * fs_world) : list io_event :=
  io_log r.2.

(** C8, as the code has it: the download-and-extract fallback is decided by
    the dataset directory alone.  When the directory is absent the download is
    the first call, before any load; when it is present the only call is the
    load of the requested file, whether or not that file is there. *)
Theorem GetRealPhyInfo_fallback_on_directory
    (t : Z) (need_info : option string) (w : fs_world) :
  (files w !! data_dir = None →
     ∃ rest,
       calls_of (GetRealPhyInfo t need_info w)
         = io_log w ++ WgetDownload data_set :: rest ∧
       (rest = [] ∨
        rest = [ExtractAll zip_name data_dir; NpLoad (npy_path t)])) ∧
  (is_Some (files w !! data_dir) →
     calls_of (GetRealPhyInfo t need_info w) = io_log w ++ [NpLoad (npy_path t)]).
Proof.
  rewrite GetRealPhyInfo_select. unfold calls_of. split.
  - intros Habs.
    unfold GetRealPhyInfo, os_path_exists, wget_download, extractall, np_load,
      log_io, set_files, bind, gets, modify, ret, raise. simpl.
    rewrite bool_decide_eq_false_2 by (rewrite Habs; by intros [? ?]).
    destruct (remote w data_set) as [members|]; simpl;
      [|exists []; split; [done|by left]].
    destruct (files w !! zip_name) as [stale|] eqn:Hzip; simpl;
      rewrite ?Hzip, ?lookup_insert_eq; simpl;
      [destruct stale as [|arr|stale]; simpl;
       try (exists []; split; [done|by left])|];
      (exists [ExtractAll zip_name data_dir; NpLoad (npy_path t)];
       split; [|by right];
       repeat match goal with
              | |- context [match ?m !! ?k with _ => _ end] =>
                  destruct (m !! k) as [[| |]|]; simpl
              end; by rewrite <- !app_assoc).
  - intros Hpres.
    unfold GetRealPhyInfo, os_path_exists, np_load,
      log_io, bind, gets, modify, ret, raise. simpl.
    rewrite bool_decide_eq_true_2 by done. simpl.
    destruct (files w !! npy_path t) as [[| |]|]; simpl; try done.
    destruct (files w !! data_dir) as [[| |]|]; done.
Qed.

End RealData.

(** A working directory that holds the dataset directory but not the file of
    time 105, while the archive on the network would provide it. *)
Definition dir_without_105 : fs_world (A:=Z) := {|
  files := {[ data_dir := Directory ]};
  remote := fun _ =>
    Some [("flow_re100_105_xyzuvwp.npy", [[1; 2; 3; 4; 5; 6; 7]])];
  io_log := []
|}.

(** C8, as stated, fails: the file of time 105 is absent, yet no download is
    made; the load is attempted directly and raises. *)
Lemma GetRealPhyInfo_absent_file_no_fallback :
  files dir_without_105 !! npy_path 105 = None ∧
  (GetRealPhyInfo 105 None dir_without_105).1
    = inl (FileNotFoundError (npy_path 105)) ∧
  calls_of (GetRealPhyInfo 105 None dir_without_105) = [NpLoad (npy_path 105)].
Proof. vm_compute. done. Qed.

(** A 2-row, 7-column record on disk. *)
Definition disk_with_100 : fs_world (A:=Z) := {|
  files := <[ npy_path 100 := NpyFile [[1; 2; 3; 4; 5; 6; 7];
                                       [8; 9; 10; 11; 12; 13; 14]] ]>
           {[ data_dir := Directory ]};
  remote := fun _ => None;
  io_log := []
|}.

Lemma GetRealPhyInfo_cord_physic_concat_witness :
  ∃ cord physic,
    GetRealPhyInfo 100 (Some "cord") disk_with_100
      = (inr cord, (GetRealPhyInfo 100 None disk_with_100).2) ∧
    GetRealPhyInfo 100 (Some "physic") disk_with_100
      = (inr physic, (GetRealPhyInfo 100 None disk_with_100).2) ∧
    cord = slice_cols 0 3 [[1; 2; 3; 4; 5; 6; 7]; [8; 9; 10; 11; 12; 13; 14]] ∧
    physic = slice_cols 3 7 [[1; 2; 3; 4; 5; 6; 7]; [8; 9; 10; 11; 12; 13; 14]] ∧
    hstack cord physic = [[1; 2; 3; 4; 5; 6; 7]; [8; 9; 10; 11; 12; 13; 14]].
Proof.
  apply (GetRealPhyInfo_cord_physic_concat 100 disk_with_100).
  - vm_compute. reflexivity.
  - repeat constructor.
Defined.

(** *** More on the accessor: the bootstrap and its failures *)

Section Bootstrap.
Context {A : Type} `{Scalar A}.

(** The dataset directory's path is not the path of a file below it. *)
Lemma directory_is_no_member (name : string) :
  data_dir +:+ "/" +:+ name ≠ data_dir.
Proof.
  intros Heq. cbv in Heq. discriminate.
Qed.

(** Extracting members below [dir] leaves an entry at another path as it is. *)
Lemma extracted_dir (dir key : string)
    (members : list (string * list (list A))) (base : gmap string node)
    (what : node) :
  (∀ name, dir +:+ "/" +:+ name ≠ key) →
  base !! key = Some what →
  foldr (fun '(name, arr) acc => <[dir +:+ "/" +:+ name := NpyFile arr]> acc)
        base members !! key = Some what.
Proof.
  intros Hother Hbase. induction members as [|[name arr] members IH]; simpl;
    [done|].
  rewrite lookup_insert_ne; [exact IH|apply Hother].
Qed.

(** With the directory in place the only call is the load. *)
Lemma calls_with_directory (t : Z) (need_info : option string) (w : fs_world) :
  is_Some (files w !! data_dir) →
  calls_of (GetRealPhyInfo t need_info w) = io_log w ++ [NpLoad (npy_path t)].
Proof.
  intros Hdir. rewrite GetRealPhyInfo_select. unfold calls_of.
  unfold GetRealPhyInfo, os_path_exists, np_load,
    log_io, bind, gets, modify, ret, raise. simpl.
  rewrite bool_decide_eq_true_2 by done. simpl.
  destruct (files w !! npy_path t) as [[| |]|]; simpl; try done.
  destruct (files w !! data_dir) as [[| |]|]; done.
Qed.

(** The dataset is fetched on the first miss only: when neither the
    directory nor a file with the archive's name is there and the served
    archive has a member, the call leaves the directory in place (whether or
    not the requested file was in the archive), and every later call, for any
    time, goes straight to the load. *)
Theorem GetRealPhyInfo_downloads_once (t : Z) (need_info : option string)
    (w : fs_world) (members : list (string * list (list A))) :
  files w !! data_dir = None →
  files w !! zip_name = None →
  remote w data_set = Some members →
  members ≠ [] →
  files (GetRealPhyInfo t need_info w).2 !! data_dir = Some Directory ∧
  ∀ t' need_info',
    calls_of (GetRealPhyInfo t' need_info' (GetRealPhyInfo t need_info w).2)
    = io_log (GetRealPhyInfo t need_info w).2 ++ [NpLoad (npy_path t')].
Proof.
  intros Habs Hzip Hserved Hmembers.
  assert (files (GetRealPhyInfo t need_info w).2 !! data_dir = Some Directory)
    as Hdir.
  { rewrite GetRealPhyInfo_select.
    unfold GetRealPhyInfo, os_path_exists, wget_download, extractall, np_load,
      log_io, set_files, bind, gets, modify, ret, raise. simpl.
    rewrite bool_decide_eq_false_2 by (rewrite Habs; by intros [? ?]).
    rewrite Hserved. simpl. rewrite Hzip, lookup_insert_eq. simpl.
    destruct members as [|member members]; [done|].
    repeat match goal with
           | |- context [match ?m !! ?k with _ => _ end] =>
               destruct (m !! k) as [[| |]|]; simpl
           end;
      (apply (extracted_dir data_dir data_dir (member :: members) _ Directory);
       [|by rewrite lookup_insert_eq]);
      apply directory_is_no_member. }
  split; [exact Hdir|].
  intros t' need_info'. apply calls_with_directory. by rewrite Hdir.
Qed.

(** When the directory is absent and the download fails, the accessor raises
    the download's error: nothing is extracted, nothing is loaded and the
    working directory is as it was. *)
Theorem GetRealPhyInfo_download_failure (t : Z) (need_info : option string)
    (w : fs_world) :
  files w !! data_dir = None →
  remote w data_set = None →
  GetRealPhyInfo t need_info w =
  (inl (URLError data_set),
   {| files := files w; remote := remote w;
      io_log := io_log w ++ [WgetDownload data_set] |}).
Proof.
  intros Habs Hdown. rewrite GetRealPhyInfo_select.
  unfold GetRealPhyInfo, os_path_exists, wget_download,
    log_io, bind, gets, modify, ret, raise. simpl.
  rewrite bool_decide_eq_false_2 by (rewrite Habs; by intros [? ?]).
  by rewrite Hdown.
Qed.

(** With the dataset directory in place (a directory, not a file of that
    name) the accessor never writes: the files are as before, the result is
    the cast and selected content of the requested [.npy] file when it is
    there, and [FileNotFoundError] for its path when no file is. *)
Theorem GetRealPhyInfo_reads_only (t : Z) (need_info : option string)
    (w : fs_world) :
  files w !! data_dir = Some Directory →
  files (GetRealPhyInfo t need_info w).2 = files w ∧
  (∀ arr, files w !! npy_path t = Some (NpyFile arr) →
     (GetRealPhyInfo t need_info w).1
       = inr (select need_info (map2d astype_float32 arr))) ∧
  (files w !! npy_path t = None →
     (GetRealPhyInfo t need_info w).1 = inl (FileNotFoundError (npy_path t))).
Proof.
  intros Hdir. rewrite GetRealPhyInfo_select.
  unfold GetRealPhyInfo, os_path_exists, np_load,
    log_io, bind, gets, modify, ret, raise. simpl.
  rewrite bool_decide_eq_true_2 by (by rewrite Hdir). simpl.
  destruct (files w !! npy_path t) as [[| |]|]; simpl; rewrite ?Hdir; simpl;
    repeat split; try done; intros; simplify_eq; done.
Qed.

(** Any [need_info] other than 'cord' and 'physic' (a misspelt one, say)
    selects nothing: the call behaves as the one with [None] and returns the
    full record. *)
Theorem GetRealPhyInfo_other_need_info (t : Z) (need_info : option string)
    (w : fs_world) :
  need_info ≠ Some "cord" →
  need_info ≠ Some "physic" →
  GetRealPhyInfo t need_info w = GetRealPhyInfo t None w.
Proof.
  intros Hcord Hphysic. rewrite GetRealPhyInfo_select.
  destruct (GetRealPhyInfo t None w) as [[e|real_data] w']; [done|].
  unfold select. by rewrite !decide_False.
Qed.

(** A call that returns with the directory in place has read the requested
    file and only logged the load. *)
Lemma GetRealPhyInfo_inr_with_directory (t : Z) (need_info : option string)
    (w w' : fs_world) (res : list (list A)) :
  is_Some (files w !! data_dir) →
  GetRealPhyInfo t need_info w = (inr res, w') →
  ∃ arr,
    files w !! npy_path t = Some (NpyFile arr) ∧
    res = select need_info (map2d astype_float32 arr) ∧
    w' = {| files := files w; remote := remote w;
            io_log := io_log w ++ [NpLoad (npy_path t)] |}.
Proof.
  intros Hdir. rewrite GetRealPhyInfo_select.
  unfold GetRealPhyInfo, os_path_exists, np_load,
    log_io, bind, gets, modify, ret, raise. simpl.
  rewrite bool_decide_eq_true_2 by done. simpl.
  destruct (files w !! npy_path t) as [[|arr|]|]; simpl; try done.
  - intros [= <- <-]. by exists arr.
  - destruct (files w !! data_dir) as [[| |]|]; done.
Qed.

(** With the directory in place and no file for the requested time, the
    load is attempted and raises. *)
Lemma GetRealPhyInfo_missing_file (t : Z) (need_info : option string)
    (w : fs_world) :
  files w !! data_dir = Some Directory →
  files w !! npy_path t = None →
  GetRealPhyInfo t need_info w =
  (inl (FileNotFoundError (npy_path t)),
   {| files := files w; remote := remote w;
      io_log := io_log w ++ [NpLoad (npy_path t)] |}).
Proof.
  intros Hdir Hfile. rewrite GetRealPhyInfo_select.
  unfold GetRealPhyInfo, os_path_exists, np_load,
    log_io, bind, gets, modify, ret, raise. simpl.
  rewrite bool_decide_eq_true_2 by (by rewrite Hdir). simpl.
  rewrite Hfile. simpl. by rewrite Hdir.
Qed.

End Bootstrap.

(** An empty working directory, with the archive of time 105 on the network. *)
Definition empty_disk_online : fs_world (A:=Z) := {|
  files := ∅;
  remote := fun _ =>
    Some [("flow_re100_105_xyzuvwp.npy", [[1; 2; 3; 4; 5; 6; 7]])];
  io_log := []
|}.

(** An empty working directory and no network. *)
Definition empty_disk_offline : fs_world (A:=Z) := {|
  files := ∅;
  remote := fun _ => None;
  io_log := []
|}.

Lemma GetRealPhyInfo_downloads_once_witness :
  files (GetRealPhyInfo 105 None empty_disk_online).2 !! data_dir
    = Some Directory ∧
  calls_of (GetRealPhyInfo 106 (Some "cord")
              (GetRealPhyInfo 105 None empty_disk_online).2)
  = [WgetDownload data_set; ExtractAll zip_name data_dir;
     NpLoad (npy_path 105); NpLoad (npy_path 106)].
Proof.
  assert ([("flow_re100_105_xyzuvwp.npy", [[1; 2; 3; 4; 5; 6; 7]])]
          ≠ ([] : list (string * list (list Z)))) as Hmembers by discriminate.
  destruct (GetRealPhyInfo_downloads_once 105 None empty_disk_online
              [("flow_re100_105_xyzuvwp.npy", [[1; 2; 3; 4; 5; 6; 7]])]
              (lookup_empty _) (lookup_empty _) eq_refl Hmembers)
    as [Hdir Hlater].
  split; [exact Hdir|].
  rewrite (Hlater 106 (Some "cord")). vm_compute. reflexivity.
Defined.

Lemma GetRealPhyInfo_download_failure_witness :
  GetRealPhyInfo 105 None empty_disk_offline =
  (inl (URLError data_set),
   {| files := ∅; remote := fun _ => None;
      io_log := [WgetDownload data_set] |}).
Proof.
  exact (GetRealPhyInfo_download_failure 105 None empty_disk_offline
           (lookup_empty _) eq_refl).
Defined.

Lemma GetRealPhyInfo_reads_only_witness :
  files (GetRealPhyInfo 100 (Some "physic") disk_with_100).2
    = files disk_with_100 ∧
  (GetRealPhyInfo 101 (Some "physic") disk_with_100).1
    = inl (FileNotFoundError (npy_path 101)).
Proof.
  assert (files disk_with_100 !! data_dir = Some Directory) as Hdir
    by (vm_compute; reflexivity).
  split.
  - exact (proj1 (GetRealPhyInfo_reads_only 100 (Some "physic")
                    disk_with_100 Hdir)).
  - apply (proj2 (proj2 (GetRealPhyInfo_reads_only 101 (Some "physic")
                           disk_with_100 Hdir))).
    vm_compute. reflexivity.
Defined.

Lemma GetRealPhyInfo_other_need_info_witness :
  GetRealPhyInfo 100 (Some "Cord") disk_with_100
  = GetRealPhyInfo 100 None disk_with_100.
Proof.
  apply GetRealPhyInfo_other_need_info; discriminate.
Defined.

End RealData.

(** ** Loss assembly (lines 162-188 of the driver script) *)

Module Loss.
Import Array2D.
Section Loss.
Context {A : Type} `{Scalar A}.

(** [compute_bc_loss(inputs_attr, labels_attr, outputs_var, pde_disc)] and
    [compute_eq_loss(input, output, labels)] of [paddlescience.solver.utils],
    and the network [algo.net.nn_func]: collaborators outside the script,
    taken as they are. *)
Variable compute_bc_loss : list (list (list A)) → A.
Variable compute_eq_loss : list (list A) → list (list A) → list (list A) → A.
Variable nn_func : list (list A) → list (list A).

(** [m[:, j]]; a row too short for [j] reads as [zero] (the network's outputs
    have four columns, so the script never meets one). *)
Definition column (j : nat) (m : list (list A)) : list A :=
  (fun row : list A => default zero (row !! j)) <$> m.

(** Elementwise [u - v] of two vectors of one length. *)
Definition vsub (u v : list A) : list A := zip_with sub u v.

(** Modelled from the spec: [l2_norm_square] of [paddlescience.solver.utils]
    is not part of the excerpt; the spec calls the data term a squared error,
    so it is the sum of the squares of the entries, accumulated left to
    right. *)
Definition l2_norm_square (v : list A) : A :=
  foldl (fun acc x => add acc (mul x x)) zero v.

(** Lines 179-182. [None] stands for the [IndexError] of a missing list
    entry. *)
Definition data_loss (outputs_var : list (list (list A)))
    (labels_var : list (list A)) : option A :=
  out4 ← outputs_var !! 4%nat;
  l3 ← labels_var !! 3%nat;
  l4 ← labels_var !! 4%nat;
  l5 ← labels_var !! 5%nat;
  l6 ← labels_var !! 6%nat;
  Some (add (add (add (l2_norm_square (vsub (column 0 out4) l3))
                      (l2_norm_square (vsub (column 1 out4) l4)))
                 (l2_norm_square (vsub (column 2 out4) l5)))
            (l2_norm_square (vsub (column 3 out4) l6))).

(** Lines 167-186: the value of [total_loss] for given fed inputs and
    labels. *)
Definition total_loss (inputs_var : list (list (list A)))
    (labels_var : list (list A)) : option A :=
  let outputs_var := nn_func <$> inputs_var in
  let bc_loss := compute_bc_loss outputs_var in
  in0 ← inputs_var !! 0%nat;
  out0 ← outputs_var !! 0%nat;
  let output_var_0_eq_loss := compute_eq_loss in0 out0 (take 3 labels_var) in
  in4 ← inputs_var !! 4%nat;
  out4 ← outputs_var !! 4%nat;
  let output_var_4_eq_loss :=
    compute_eq_loss in4 out4 (take 3 (drop 7 labels_var)) in
  data_loss ← data_loss outputs_var labels_var;
  Some (sqrt (add (add (add bc_loss output_var_0_eq_loss) output_var_4_eq_loss)
                  (mul (of_Z 100) data_loss))).

(** The spec's wording of the data term: for one output column, the sum over
    the reference points of the squared difference between the network output
    and the label. *)
Definition squared_errors (c : nat) (out : list (list A)) (label : list A) : A :=
  foldl (fun acc '(row, y) =>
           let err := sub (default zero (row !! c)) y in add acc (mul err err))
        zero (zip out label).

(** ... summed over the four physical fields u, v, w, p. *)
Definition sum_squared_errors (out : list (list A)) (u v w p : list A) : A :=
  add (add (add (squared_errors 0 out u) (squared_errors 1 out v))
           (squared_errors 2 out w))
      (squared_errors 3 out p).

Lemma l2_norm_square_errors_from (c : nat) (out : list (list A))
    (label : list A) (acc : A) :
  foldl (fun acc x => add acc (mul x x)) acc (vsub (column c out) label) =
  foldl (fun acc '(row, y) =>
           let err := sub (default zero (row !! c)) y in add acc (mul err err))
        acc (zip out label).
Proof.
  revert label acc. unfold vsub, column.
  induction out as [|row out IH]; intros [|y label] acc; simpl; auto.
Qed.

Lemma l2_norm_square_errors (c : nat) (out : list (list A)) (label : list A) :
  l2_norm_square (vsub (column c out) label) = squared_errors c out label.
Proof. apply l2_norm_square_errors_from. Qed.

(** C1: whatever is fed, the objective is the square root of
    bc_loss + eq_loss(interior) + eq_loss(reference) + 100 * data_loss, with
    data_loss the summed squared error of the reference output's four columns
    against labels 3..6. *)
Theorem total_loss_formula
    (inputs_var : list (list (list A))) (labels_var : list (list A))
    (in0 in4 : list (list A)) (u v w p : list A) :
  inputs_var !! 0%nat = Some in0 →
  inputs_var !! 4%nat = Some in4 →
  labels_var !! 3%nat = Some u →
  labels_var !! 4%nat = Some v →
  labels_var !! 5%nat = Some w →
  labels_var !! 6%nat = Some p →
  total_loss inputs_var labels_var =
  Some (sqrt (add (add (add (compute_bc_loss (nn_func <$> inputs_var))
                            (compute_eq_loss in0 (nn_func in0) (take 3 labels_var)))
                       (compute_eq_loss in4 (nn_func in4)
                          (take 3 (drop 7 labels_var))))
                  (mul (of_Z 100) (sum_squared_errors (nn_func in4) u v w p)))).
Proof.
  intros Hin0 Hin4 Hu Hv Hw Hp.
  unfold total_loss, data_loss. simpl.
  rewrite !list_lookup_fmap, Hin0, Hin4, Hu, Hv, Hw, Hp. simpl.
  by rewrite !l2_norm_square_errors.
Qed.

End Loss.

(** Five input groups of one point each, ten label vectors, a network that
    answers (1, 2, 3, 4) at every point. *)
Lemma total_loss_formula_witness :
  total_loss (A:=Z) (fun _ => 3) (fun _ _ _ => 5)
    (fun m => (fun _ => [1; 2; 3; 4]) <$> m)
    (replicate 5 [[0; 0; 0]]) (replicate 10 [0]) = Some 54.
Proof.
  rewrite (total_loss_formula (A:=Z) (fun _ => 3) (fun _ _ _ => 5)
             (fun m => (fun _ => [1; 2; 3; 4]) <$> m)
             (replicate 5 [[0; 0; 0]]) (replicate 10 [0])
             [[0; 0; 0]] [[0; 0; 0]] [0] [0] [0] [0]);
    reflexivity.
Defined.

(** *** More on the loss: which entries it needs *)

Section LossEdges.
Context {A : Type} `{Scalar A}.
Variable compute_bc_loss : list (list (list A)) → A.
Variable compute_eq_loss : list (list A) → list (list A) → list (list A) → A.
Variable nn_func : list (list A) → list (list A).


(** The loss reads the labels through [labels_var[0:3]], [labels_var[3..6]]
    and [labels_var[7:10]] only: label vectors from index 10 on have no
    effect on it. *)
Theorem total_loss_ignores_labels_from_10 (inputs_var : list (list (list A)))
    (labels_var : list (list A)) :
  total_loss compute_bc_loss compute_eq_loss nn_func inputs_var labels_var =
  total_loss compute_bc_loss compute_eq_loss nn_func inputs_var
    (take 10 labels_var).
Proof.
  unfold total_loss, data_loss.
  rewrite !lookup_take_lt by lia.
  rewrite take_take. simpl.
  rewrite (take_drop_commute labels_var 3 7).
  rewrite (take_drop_commute (take 10 labels_var) 3 7).
  rewrite take_take. simpl. reflexivity.
Qed.

End LossEdges.

End Loss.

(** ** The time-marching driver (lines 219-270 of the script) *)

Module Driver.
Import Array2D Eff RealData.

(** [start_time = 100], [time_step = 1] *)
Definition start_time : Z := 100.
Definition time_step : Z := 1.

Section Driver.
Context {A : Type} `{Scalar A}.

(** Arrays fed to the program, the executor's internal state (the network's
    weights and the optimizer's moments), and label attributes. *)
Variables Tensor W Attr : Type.

(** Configuration: [vtk_filename], [solution_filename], [train_epoch]
    ([epochs]), and the number of interior points
    [len(pde_disc.geometry.interior)]. *)
Variables vtk_filename solution_filename : string.
Variable train_epoch : nat.
Variable n_interior : nat.

(** [labels], [labels_attr] as [algo.create_labels] made them, and the
    collaborators the loop calls: [algo.feed_data_interior_cur],
    [algo.feed_data_user_cur], [algo.feed_data_user_next],
    [data_parallel_partition(labels, time_step=i)] and
    [exe.run(main_program, feed=feeds, fetch_list=fetches)], which returns the
    fetched arrays ([total_loss] first, then one array per network output).
    The feed functions are taken as functions of their arguments: what they
    return is what the loop goes on with. *)
Variable labels : list Tensor.
Variable labels_attr : Attr.
Variable feed_data_interior_cur : list Tensor → Attr → list (list A) → list Tensor.
Variable feed_data_user_cur : list Tensor → Attr → list (list A) → list Tensor.
Variable feed_data_user_next : list Tensor → Attr → list (list A) → list Tensor.
Variable data_parallel_partition : list Tensor → nat → list Tensor.
Variable exe_run : W → gmap string Tensor → W * list (list (list A)).

(** What the loop does to the outside, in order.  Console output and the
    wall-clock timers ([build_flag], [st]) are not modelled. *)
Inductive event : Type :=
| ExeRun (feeds : gmap string Tensor) (fetched : list (list (list A)))
| SaveVtk (filename : string) (data : list (list (list A)))
| SaveNpy (filename : string) (data : list (list (list A))).

Record world : Type := {
  disk : fs_world (A:=A);
  exe : W;
  log : list event
}.

(** The variables that live across iterations of the time loop. [out] is
    unbound until the first [exe.run]. *)
Record carry : Type := {
  current_interior : list (list A);
  current_user : list (list A);
  out : option (list (list (list A)));
  feeds : gmap string Tensor
}.

Definition on_disk {X : Type} (m : M (S:=fs_world) X) : M (S:=world) X :=
  fun w => let '(r, d) := m (disk w) in
           (r, {| disk := d; exe := exe w; log := log w |}).

(** A call to the executor or to a writer of [psci.visu] is recorded in the
    log.  What the writers put on disk is not followed: their files are no
    entries of the accessor's [files]. *)
Definition emit (e : event) : M (S:=world) unit :=
  modify (fun w => {| disk := disk w; exe := exe w; log := log w ++ [e] |}).

(** [out = exe.run(main_program, feed=feeds, fetch_list=fetches)] *)
Definition run_executor (fd : gmap string Tensor)
  : M (S:=world) (list (list (list A))) :=
  fun w => let '(st, fetched) := exe_run (exe w) fd in
           (inr fetched,
            {| disk := disk w; exe := st; log := log w ++ [ExeRun fd fetched] |}).

(** [for j in range(len(self_lables)): feeds['label' + str(j)] = self_lables[j]],
    from index [j] on. *)
Fixpoint feed_labels_from (j : nat) (self_lables : list Tensor)
    (fd : gmap string Tensor) : gmap string Tensor :=
  match self_lables with
  | [] => fd
  | x :: rest => feed_labels_from (S j) rest (<["label" +:+ pretty j := x]> fd)
  end.

Definition feed_labels (self_lables : list Tensor) (fd : gmap string Tensor)
  : gmap string Tensor :=
  feed_labels_from 0 self_lables fd.

(** Lines 232-241 as one function: the labels of iteration [i]. *)
Definition step_labels (i : nat) (cur_interior cur_user real : list (list A))
  : list Tensor :=
  let self_lables := feed_data_interior_cur labels labels_attr cur_interior in
  let self_lables := feed_data_user_cur self_lables labels_attr cur_user in
  let self_lables := feed_data_user_next self_lables labels_attr real in
  data_parallel_partition self_lables i.

(** Lines 247-253: [k] more passes of the epoch loop. *)
Fixpoint epoch_loop (k : nat) (fd : gmap string Tensor)
    (o : option (list (list (list A))))
  : M (S:=world) (option (list (list (list A)))) :=
  match k with
  | O => ret o
  | S k' => let* fetched := run_executor fd in epoch_loop k' fd (Some fetched)
  end.

(** Reading a variable that may be unbound. *)
Definition read_out (o : option (list (list (list A))))
  : M (S:=world) (list (list (list A))) :=
  match o with
  | Some fetched => ret fetched
  | None => raise (NameError "out")
  end.

(** [xs[i]] and [xs[-1]] *)
Definition item {X : Type} (xs : list X) (i : nat) : M (S:=world) X :=
  match xs !! i with
  | Some x => ret x
  | None => raise IndexError
  end.

Definition item_last {X : Type} (xs : list X) : M (S:=world) X :=
  match last xs with
  | Some x => ret x
  | None => raise IndexError
  end.

(** Lines 229-270: the body of the time loop for index [i]. *)
Definition time_step_body (i : nat) (c : carry) : M (S:=world) carry :=
  let next_time := start_time + (Z.of_nat i + 1) * time_step in
  let self_lables :=
    feed_data_interior_cur labels labels_attr (current_interior c) in
  let self_lables :=
    feed_data_user_cur self_lables labels_attr (current_user c) in
  let* real := on_disk (GetRealPhyInfo next_time (Some "physic")) in
  let self_lables := feed_data_user_next self_lables labels_attr real in
  let self_lables := data_parallel_partition self_lables i in
  let fd := feed_labels self_lables (feeds c) in
  let* o := epoch_loop train_epoch fd (out c) in
  let* fetched := read_out o in
  let next_uvwp := drop 1 fetched in
  let* _ := emit (SaveVtk (vtk_filename +:+ pretty next_time) next_uvwp) in
  let* _ := emit (SaveNpy (solution_filename +:+ pretty next_time) next_uvwp) in
  let* next_interior := item next_uvwp 0 in
  let* next_user := item_last next_uvwp in
  ret {| current_interior := slice_cols 0 3 next_interior;
         current_user := slice_cols 0 3 next_user;
         out := Some fetched;
         feeds := fd |}.

(** [for i in ...: body] over the remaining indices. *)
Fixpoint time_loop (indices : list nat) (c : carry) : M (S:=world) carry :=
  match indices with
  | [] => ret c
  | i :: rest => let* c' := time_step_body i c in time_loop rest c'
  end.

(** Lines 223-225: the state before the first iteration; [feeds0] is the
    feed dictionary built from the inputs at line 198. *)
Definition init_carry (feeds0 : gmap string Tensor) : M (S:=world) carry :=
  let interior := map2d astype_float32 (full n_interior 3 zero) in
  let* physic := on_disk (GetRealPhyInfo start_time (Some "physic")) in
  ret {| current_interior := interior;
         current_user := slice_cols 0 3 physic;
         out := None;
         feeds := feeds0 |}.

(** Lines 222-270 for a given [num_time_step]. *)
Definition time_marching (feeds0 : gmap string Tensor) (num_time_step : nat)
  : M (S:=world) carry :=
  let* c := init_carry feeds0 in
  time_loop (seq 0 num_time_step) c.

(** *** Observations on the log *)

Definition is_run (e : event) : bool :=
  match e with ExeRun _ _ => true | _ => false end.

Definition is_write (e : event) : bool :=
  match e with SaveVtk _ _ | SaveNpy _ _ => true | ExeRun _ _ => false end.

(** The number of optimizer steps executed, and of artifact files written. *)
Definition optimizer_steps (l : list event) : nat := length (filter is_run l).
Definition artifact_writes (l : list event) : nat := length (filter is_write l).

(** What the most recent optimizer step fetched. *)
Definition last_fetched (l : list event) : option (list (list (list A))) :=
  foldl (fun acc e => match e with ExeRun _ fetched => Some fetched | _ => acc end)
        None l.

(** *** Facts about the log observers *)

Lemma last_fetched_from (acc : option (list (list (list A)))) (l : list event) :
  foldl (fun acc e => match e with ExeRun _ fetched => Some fetched | _ => acc end)
        acc l
  = from_option Some acc (last_fetched l).
Proof.
  unfold last_fetched. revert acc.
  induction l as [|e l IH]; intros acc; simpl; [done|].
  rewrite IH, (IH (match e with ExeRun _ f => Some f | _ => None end)).
  destruct (foldl _ None l); simpl; [done|]. by destruct e.
Qed.

Lemma last_fetched_app (l1 l2 : list event) :
  last_fetched (l1 ++ l2) = from_option Some (last_fetched l1) (last_fetched l2).
Proof.
  unfold last_fetched at 1. rewrite foldl_app. apply last_fetched_from.
Qed.

Lemma optimizer_steps_app (l1 l2 : list event) :
  optimizer_steps (l1 ++ l2) = (optimizer_steps l1 + optimizer_steps l2)%nat.
Proof. unfold optimizer_steps. by rewrite filter_app, length_app. Qed.

Lemma artifact_writes_app (l1 l2 : list event) :
  artifact_writes (l1 ++ l2) = (artifact_writes l1 + artifact_writes l2)%nat.
Proof. unfold artifact_writes. by rewrite filter_app, length_app. Qed.

(** The events of one pass of the epoch loop over the feeds [fd]: executor
    runs on [fd], each logging what the executor returned. *)
Definition runs_on (fd : gmap string Tensor) (evs : list event) : Prop :=
  Forall (fun e => ∃ st, e = ExeRun fd (exe_run st fd).2) evs.

Lemma runs_on_counts (fd : gmap string Tensor) (evs : list event) :
  runs_on fd evs →
  optimizer_steps evs = length evs ∧ artifact_writes evs = 0%nat.
Proof.
  unfold optimizer_steps, artifact_writes.
  induction 1 as [|e evs [st ->] _ [IH1 IH2]]; [done|].
  rewrite filter_cons_True by done.
  rewrite filter_cons_False by (simpl; tauto).
  simpl. by rewrite IH1.
Qed.

Lemma runs_on_last (fd : gmap string Tensor) (evs : list event) :
  runs_on fd evs → evs ≠ [] →
  ∃ st, last_fetched evs = Some (exe_run st fd).2.
Proof.
  intros Hall Hne. destruct evs as [|e evs _] using rev_ind; [done|].
  apply Forall_app in Hall as [_ Hlast].
  apply Forall_singleton in Hlast as [st ->].
  exists st. by rewrite last_fetched_app.
Qed.

(** *** The epoch loop *)

Lemma epoch_loop_spec (k : nat) (fd : gmap string Tensor)
    (o : option (list (list (list A)))) (w : world) :
  ∃ st evs,
    epoch_loop k fd o w =
      (inr (from_option Some o (last_fetched evs)),
       {| disk := disk w; exe := st; log := log w ++ evs |}) ∧
    length evs = k ∧ runs_on fd evs.
Proof.
  revert o w. induction k as [|k IH]; intros o w.
  - exists (exe w), []. simpl. unfold ret. rewrite app_nil_r.
    destruct w; repeat split. constructor.
  - simpl. unfold bind, run_executor.
    destruct (exe_run (exe w) fd) as [st fetched] eqn:Hrun.
    destruct (IH (Some fetched)
                {| disk := disk w; exe := st;
                   log := log w ++ [ExeRun fd fetched] |})
      as (st' & evs & Heq & Hlen & Hall).
    exists st', (ExeRun fd fetched :: evs). rewrite Heq. simpl.
    repeat split.
    + f_equal; [|by rewrite <- app_assoc].
      f_equal. change (ExeRun fd fetched :: evs) with ([ExeRun fd fetched] ++ evs).
      rewrite last_fetched_app. simpl. by destruct (last_fetched evs).
    + by rewrite Hlen.
    + constructor; [|done]. exists (exe w). by rewrite Hrun.
Qed.

(** *** One iteration of the time loop *)

Lemma on_disk_inr {X : Type} (m : M (S:=fs_world) X) (w w' : world) (x : X) :
  on_disk m w = (inr x, w') →
  ∃ d, m (disk w) = (inr x, d) ∧ w' = {| disk := d; exe := exe w; log := log w |}.
Proof.
  unfold on_disk. destruct (m (disk w)) as [[e|y] d]; intros [= <- <-]; eauto.
Qed.

(** The wall-clock time of iteration [i] and the two file names it writes. *)
Definition next_time_of (i : nat) : Z := start_time + (Z.of_nat i + 1) * time_step.

Definition step_writes (i : nat) (next_uvwp : list (list (list A))) : list event :=
  [SaveVtk (vtk_filename +:+ pretty (next_time_of i)) next_uvwp;
   SaveNpy (solution_filename +:+ pretty (next_time_of i)) next_uvwp].

(** What a completed iteration has done. *)
Lemma time_step_body_inr (i : nat) (c c' : carry) (w w' : world) :
  time_step_body i c w = (inr c', w') →
  ∃ real d st evs fetched next_interior next_user,
    let fd := feed_labels
                (step_labels i (current_interior c) (current_user c) real)
                (feeds c) in
    GetRealPhyInfo (next_time_of i) (Some "physic") (disk w) = (inr real, d) ∧
    length evs = train_epoch ∧
    runs_on fd evs ∧
    from_option Some (out c) (last_fetched evs) = Some fetched ∧
    drop 1 fetched !! 0%nat = Some next_interior ∧
    last (drop 1 fetched) = Some next_user ∧
    c' = {| current_interior := slice_cols 0 3 next_interior;
            current_user := slice_cols 0 3 next_user;
            out := Some fetched;
            feeds := fd |} ∧
    w' = {| disk := d; exe := st;
            log := log w ++ evs ++ step_writes i (drop 1 fetched) |}.
Proof.
  unfold time_step_body. fold (next_time_of i). intros Hbody.
  apply bind_inr in Hbody as (real & w1 & Hreal & Hbody).
  apply on_disk_inr in Hreal as (d & Hreal & ->).
  apply bind_inr in Hbody as (o & w2 & Hloop & Hbody).
  match type of Hloop with
  | epoch_loop _ ?fd _ ?w0 = _ =>
      destruct (epoch_loop_spec train_epoch fd (out c) w0)
        as (st & evs & Heq & Hlen & Hruns)
  end.
  rewrite Heq in Hloop. injection Hloop as <- <-. simpl in Hbody.
  apply bind_inr in Hbody as (fetched & w3 & Hout & Hbody).
  unfold read_out in Hout.
  destruct (from_option Some (out c) (last_fetched evs)) as [f|] eqn:Hf;
    [|discriminate].
  injection Hout as -> <-.
  unfold bind, emit, modify in Hbody. simpl in Hbody.
  unfold item, item_last, ret, raise in Hbody.
  destruct (drop 1 fetched !! 0%nat) as [next_interior|] eqn:Hni; [|discriminate].
  destruct (last (drop 1 fetched)) as [next_user|] eqn:Hnu; [|discriminate].
  injection Hbody as <- <-.
  exists real, d, st, evs, fetched, next_interior, next_user. simpl.
  repeat split; try done.
  unfold step_writes. by rewrite <- !app_assoc.
Qed.

(** Conversely an iteration completes once the data of its time loads, at
    least one epoch runs and the executor returns the loss and an output. *)
Lemma time_step_body_completes (i : nat) (c : carry) (w : world)
    (real : list (list A)) (d : fs_world) :
  GetRealPhyInfo (next_time_of i) (Some "physic") (disk w) = (inr real, d) →
  (0 < train_epoch)%nat →
  (∀ st fd, 2 ≤ length (exe_run st fd).2)%nat →
  ∃ c' st evs,
    time_step_body i c w =
      (inr c', {| disk := d; exe := st; log := log w ++ evs |}).
Proof.
  intros Hreal Hepoch Hfetch.
  unfold time_step_body. fold (next_time_of i).
  rewrite (bind_step _ _ _ real {| disk := d; exe := exe w; log := log w |})
    by (unfold on_disk; by rewrite Hreal).
  match goal with
  | |- context [bind (epoch_loop _ ?fd _) _ ?w0] =>
      destruct (epoch_loop_spec train_epoch fd (out c) w0)
        as (st & evs & Heq & Hlen & Hruns);
      rewrite (bind_step _ _ _ _ _ Heq);
      destruct (runs_on_last fd evs Hruns) as [st1 Hlast];
        [intros ->; simpl in Hlen; lia|];
      pose proof (Hfetch st1 fd) as Hlen2
  end.
  rewrite Hlast. simpl.
  destruct (exe_run st1 _).2 as [|loss [|o1 os]] eqn:Hout; simpl in Hlen2;
    [lia|lia|].
  unfold bind, read_out, emit, modify, item, item_last, ret. simpl.
  destruct (last (o1 :: os)) as [lst|] eqn:Hl.
  - eexists _, st, _. simpl. rewrite <- !app_assoc. reflexivity.
  - by apply last_None in Hl.
Qed.

(** *** The whole loop *)

Lemma time_loop_app (l1 l2 : list nat) (c : carry) (w : world) :
  time_loop (l1 ++ l2) c w = bind (time_loop l1 c) (time_loop l2) w.
Proof.
  revert c w. induction l1 as [|i l1 IH]; intros c w; simpl; [done|].
  unfold bind.
  destruct (time_step_body i c w) as [[e|c1] w1]; [done|].
  rewrite IH. reflexivity.
Qed.

(** The run cut after [i] iterations, continued for the remaining ones, is
    the run. *)
Lemma time_marching_split (feeds0 : gmap string Tensor) (i k : nat) (w : world) :
  time_marching feeds0 (i + k) w =
  bind (time_marching feeds0 i) (time_loop (seq i k)) w.
Proof.
  unfold time_marching. rewrite seq_app, Nat.add_0_l. unfold bind.
  destruct (init_carry feeds0 w) as [[e|c] w1]; [done|].
  rewrite time_loop_app. reflexivity.
Qed.

(** *** The feed dictionary *)

Lemma feed_labels_from_other (j : nat) (ls : list Tensor)
    (fd : gmap string Tensor) (key : string) :
  (∀ k, (j ≤ k)%nat → key ≠ "label" +:+ pretty k) →
  feed_labels_from j ls fd !! key = fd !! key.
Proof.
  revert j fd. induction ls as [|x ls IH]; intros j fd Hkey; simpl; [done|].
  rewrite IH by (intros k Hk; apply Hkey; lia).
  apply lookup_insert_ne. intros Heq. by apply (Hkey j).
Qed.

Lemma feed_labels_from_lookup (j k : nat) (ls : list Tensor)
    (fd : gmap string Tensor) (x : Tensor) :
  ls !! k = Some x →
  feed_labels_from j ls fd !! ("label" +:+ pretty (j + k)%nat) = Some x.
Proof.
  revert j k fd. induction ls as [|y ls IH]; intros j k fd Hk; [done|].
  destruct k as [|k]; simpl in *.
  - injection Hk as ->. rewrite Nat.add_0_r.
    rewrite feed_labels_from_other; [apply lookup_insert_eq|].
    intros k Hk Heq. apply (inj (String.app "label")) in Heq.
    apply (inj pretty) in Heq. lia.
  - replace (j + S k)%nat with (S j + k)%nat by lia. by apply IH.
Qed.

(** [feeds['label' + str(k)]] is [self_lables[k]] after line 244. *)
Lemma feed_labels_lookup (k : nat) (ls : list Tensor)
    (fd : gmap string Tensor) (x : Tensor) :
  ls !! k = Some x →
  feed_labels ls fd !! ("label" +:+ pretty k) = Some x.
Proof. apply (feed_labels_from_lookup 0 k). Qed.

(** *** C2: the carried state *)

(** C2: an iteration that completes leaves, as [current_interior] and
    [current_user], columns 0:3 (the first three entries of every row) of the
    first and of the last array of [next_uvwp], the outputs of the most recent
    optimizer step; and the next iteration builds its labels from exactly
    these two arrays and runs every optimizer step on the feeds made from
    them. *)
Theorem carry_is_sliced_final_outputs (i : nat) (c c' : carry) (w w' : world) :
  out c = last_fetched (log w) →
  time_step_body i c w = (inr c', w') →
  ∃ fetched next_interior next_user,
    last_fetched (log w') = Some fetched ∧
    out c' = last_fetched (log w') ∧
    drop 1 fetched !! 0%nat = Some next_interior ∧
    last (drop 1 fetched) = Some next_user ∧
    current_interior c' = (fun row : list A => take 3 row) <$> next_interior ∧
    current_user c' = (fun row : list A => take 3 row) <$> next_user ∧
    ∀ c'' w'',
      time_step_body (S i) c' w' = (inr c'', w'') →
      ∃ real d evs rest,
        let self_lables :=
          data_parallel_partition
            (feed_data_user_next
               (feed_data_user_cur
                  (feed_data_interior_cur labels labels_attr
                     ((fun row : list A => take 3 row) <$> next_interior))
                  labels_attr ((fun row : list A => take 3 row) <$> next_user))
               labels_attr real)
            (S i) in
        GetRealPhyInfo (next_time_of (S i)) (Some "physic") (disk w')
          = (inr real, d) ∧
        feeds c'' = feed_labels self_lables (feeds c') ∧
        (∀ k x, self_lables !! k = Some x →
                feeds c'' !! ("label" +:+ pretty k) = Some x) ∧
        log w'' = log w' ++ evs ++ rest ∧
        length evs = train_epoch ∧
        runs_on (feeds c'') evs ∧
        optimizer_steps rest = 0%nat.
Proof.
  intros Hinv Hbody.
  apply time_step_body_inr in Hbody
    as (real & d & st & evs & fetched & ni & nu & Hreal & Hlen & Hruns
        & Hfetched & Hni & Hnu & -> & ->).
  exists fetched, ni, nu. simpl. rewrite <- !slice_cols_first.
  assert (last_fetched (log w ++ evs ++ step_writes i (drop 1 fetched))
          = Some fetched) as Hlast.
  { rewrite !last_fetched_app. simpl. by rewrite <- Hinv. }
  repeat split; try done.
  intros c'' w'' Hnext.
  apply time_step_body_inr in Hnext
    as (real' & d' & st' & evs' & fetched' & ni' & nu' & Hreal' & Hlen' & Hruns'
        & _ & _ & _ & -> & ->).
  simpl in *. exists real', d', evs', (step_writes (S i) (drop 1 fetched')).
  repeat split; try done.
  intros k x Hk. by apply feed_labels_lookup.
Qed.

(** *** C4: the shape of the interior label *)

Lemma init_carry_inr (feeds0 : gmap string Tensor) (c : carry) (w w' : world) :
  init_carry feeds0 w = (inr c, w') →
  current_interior c = map2d astype_float32 (full n_interior 3 zero) ∧
  out c = None ∧ exe w' = exe w ∧ log w' = log w.
Proof.
  unfold init_carry. intros Hinit.
  apply bind_inr in Hinit as (physic & w1 & Hphys & Hret).
  apply on_disk_inr in Hphys as (d & _ & ->).
  unfold ret in Hret. by injection Hret as <- <-.
Qed.

(** Where a fetched list comes from: the epoch loop of this iteration, or,
    when that loop made no pass, the variable [out] as it stood. *)
Lemma fetched_origin (fd : gmap string Tensor) (evs : list event)
    (o : option (list (list (list A)))) (fetched : list (list (list A))) :
  runs_on fd evs →
  from_option Some o (last_fetched evs) = Some fetched →
  o = Some fetched ∨ ∃ st, fetched = (exe_run st fd).2.
Proof.
  intros Hruns Hf. destruct evs as [|e evs].
  - left. exact Hf.
  - right. destruct (runs_on_last fd (e :: evs) Hruns) as [st Hst]; [done|].
    rewrite Hst in Hf. simpl in Hf. injection Hf as <-. by exists st.
Qed.

(** What the loop keeps true of the carried state. *)
Definition interior_ok (c : carry) : Prop :=
  has_shape n_interior 3 (current_interior c) ∧
  (out c = None ∨ ∃ st fd, out c = Some (exe_run st fd).2).

(** The network has [num_outs = 4] and the first input group is the
    interior point cloud, so on one worker the first network output the
    executor fetches has one row of four values per interior point. *)
Definition interior_output_shape : Prop :=
  ∀ st fd, ∃ o,
    (exe_run st fd).2 !! 1%nat = Some o ∧ has_shape n_interior 4 o.

Lemma time_step_body_interior_ok (i : nat) (c c' : carry) (w w' : world) :
  interior_output_shape →
  interior_ok c →
  time_step_body i c w = (inr c', w') →
  interior_ok c'.
Proof.
  intros Hexe [_ Hout] Hbody.
  apply time_step_body_inr in Hbody
    as (real & d & st & evs & fetched & ni & nu & _ & _ & Hruns
        & Hfetched & Hni & _ & -> & _).
  assert (∃ st' fd', fetched = (exe_run st' fd').2) as (st' & fd' & ->).
  { destruct (fetched_origin _ _ _ _ Hruns Hfetched) as [Ho|[st' ->]]; [|eauto].
    rewrite Ho in Hout. destruct Hout as [|(st' & fd' & [= ->])]; [done|eauto]. }
  split; simpl; [|eauto].
  destruct (Hexe st' fd') as (o & Ho & Hshape).
  rewrite lookup_drop in Hni. simpl in Hni. rewrite Ho in Hni.
  injection Hni as <-.
  apply (slice_cols_shape 0 3 n_interior 4); [done|lia].
Qed.

Lemma time_loop_interior_ok (l : list nat) (c c' : carry) (w w' : world) :
  interior_output_shape →
  interior_ok c →
  time_loop l c w = (inr c', w') →
  interior_ok c'.
Proof.
  intros Hexe. revert c w. induction l as [|i l IH]; intros c w Hc; simpl.
  - unfold ret. by intros [= <- _].
  - intros Hloop. apply bind_inr in Hloop as (c1 & w1 & Hbody & Hrest).
    eapply IH; [|exact Hrest]. by eapply time_step_body_interior_ok.
Qed.

(** When every [exe.run] fetches such an output, the carried state that
    enters iteration [i] holds a [current_interior] of shape
    (interior point count, 3), and iteration [i] feeds exactly this array as
    the interior label. *)
Lemma interior_label_shape_on_one_worker (feeds0 : gmap string Tensor)
    (num_time_step i : nat) (c : carry) (w w' : world) :
  interior_output_shape →
  (i < num_time_step)%nat →
  time_marching feeds0 i w = (inr c, w') →
  has_shape n_interior 3 (current_interior c) ∧
  time_marching feeds0 num_time_step w =
    bind (time_step_body i c)
         (time_loop (seq (S i) (num_time_step - S i))) w'.
Proof.
  intros Hexe Hlt Hprefix. split.
  - unfold time_marching in Hprefix.
    apply bind_inr in Hprefix as (c0 & w0 & Hinit & Hloop).
    apply init_carry_inr in Hinit as (Hint & Hout & _ & _).
    eapply (time_loop_interior_ok _ c0 c w0 w' Hexe); [|exact Hloop].
    split; [|by left]. rewrite Hint.
    apply map2d_shape, full_shape.
  - replace num_time_step with (i + S (num_time_step - S i))%nat at 1 by lia.
    rewrite time_marching_split. unfold bind at 1. rewrite Hprefix.
    reflexivity.
Qed.

(** C4, as the code has it.  The interior label of iteration 0 is the zero
    array of shape (interior point count, 3) made at line 223.  Every
    iteration replaces [current_interior] by columns 0:3 of [next_uvwp[0]],
    the second array [exe.run] fetched: from iteration 1 on the label has that
    output's number of rows, and three columns when the output has at least
    three.  So the shape (interior point count, 3) is kept for every index
    when every [exe.run] fetches a first network output with one row of four
    values per interior point; nothing in the loop makes the row count follow
    the interior point count otherwise. *)
Theorem interior_label_shape_follows_executor (feeds0 : gmap string Tensor) :
  (∀ c w w',
     time_marching feeds0 0 w = (inr c, w') →
     has_shape n_interior 3 (current_interior c)) ∧
  (∀ i c c' w w',
     time_step_body i c w = (inr c', w') →
     ∃ fetched next_interior,
       out c' = Some fetched ∧
       fetched !! 1%nat = Some next_interior ∧
       current_interior c' = (fun row : list A => take 3 row) <$> next_interior ∧
       ∀ rows cols,
         has_shape rows cols next_interior →
         has_shape rows (cols `min` 3) (current_interior c')) ∧
  (interior_output_shape →
   ∀ num_time_step i c w w',
     (i < num_time_step)%nat →
     time_marching feeds0 i w = (inr c, w') →
     has_shape n_interior 3 (current_interior c) ∧
     time_marching feeds0 num_time_step w =
       bind (time_step_body i c)
            (time_loop (seq (S i) (num_time_step - S i))) w').
Proof.
  split; [|split].
  - intros c w w' Hrun. unfold time_marching in Hrun.
    apply bind_inr in Hrun as (c0 & w0 & Hinit & Hloop).
    apply init_carry_inr in Hinit as (Hint & _ & _ & _).
    simpl in Hloop. unfold ret in Hloop. injection Hloop as <- _.
    rewrite Hint. apply map2d_shape, full_shape.
  - intros i c c' w w' Hbody.
    apply time_step_body_inr in Hbody
      as (real & d & st & evs & fetched & ni & nu & _ & _ & _
          & _ & Hni & _ & -> & _).
    exists fetched, ni. simpl.
    rewrite lookup_drop in Hni. simpl in Hni.
    split; [done|]. split; [exact Hni|]. split; [apply slice_cols_first|].
    intros rows cols [Hrows Hcols]. rewrite slice_cols_first.
    split; [by rewrite length_fmap|].
    apply Forall_fmap. eapply Forall_impl; [exact Hcols|].
    intros row Hrow. simpl in *. rewrite length_take. lia.
  - intros Hexe num_time_step i c w w'.
    apply interior_label_shape_on_one_worker, Hexe.
Qed.

(** *** C5: how many steps and writes a run makes *)

Lemma time_loop_counts (l : list nat) (c c' : carry) (w w' : world) :
  time_loop l c w = (inr c', w') →
  optimizer_steps (log w')
    = (optimizer_steps (log w) + length l * train_epoch)%nat ∧
  artifact_writes (log w') = (artifact_writes (log w) + 2 * length l)%nat.
Proof.
  revert c w. induction l as [|i l IH]; intros c w; simpl.
  - unfold ret. intros [= _ <-]. lia.
  - intros Hloop. apply bind_inr in Hloop as (c1 & w1 & Hbody & Hrest).
    apply IH in Hrest as [Hsteps Hwrites].
    apply time_step_body_inr in Hbody
      as (real & d & st & evs & fetched & ni & nu & _ & Hlen & Hruns
          & _ & _ & _ & _ & ->).
    apply runs_on_counts in Hruns as [Hr Hw]. simpl in *.
    rewrite !optimizer_steps_app in Hsteps.
    rewrite !artifact_writes_app in Hwrites.
    rewrite Hr, Hlen in Hsteps. rewrite Hw in Hwrites.
    unfold step_writes, optimizer_steps, artifact_writes in *.
    simpl in *. lia.
Qed.

(** The data of every time the loop will ask for is on disk. *)
Definition data_on_disk (l : list nat) (d : fs_world (A:=A)) : Prop :=
  is_Some (files d !! data_dir) ∧
  ∀ i, i ∈ l → ∃ arr, files d !! npy_path (next_time_of i) = Some (NpyFile arr).

Lemma time_loop_completes (l : list nat) (c : carry) (w : world) :
  (0 < train_epoch)%nat →
  (∀ st fd, 2 ≤ length (exe_run st fd).2)%nat →
  data_on_disk l (disk w) →
  ∃ c' w', time_loop l c w = (inr c', w').
Proof.
  intros Hepoch Hfetch. revert c w.
  induction l as [|i l IH]; intros c w [Hdir Hfiles]; simpl.
  - by exists c, w.
  - destruct (Hfiles i) as [arr Harr]; [by left|].
    pose proof (GetRealPhyInfo_present (next_time_of i) (Some "physic")
                  (disk w) arr Hdir Harr) as Hreal.
    destruct (time_step_body_completes i c w _ _ Hreal Hepoch Hfetch)
      as (c1 & st & evs & Hbody).
    rewrite (bind_step _ _ _ _ _ Hbody).
    apply IH. split; simpl; [done|].
    intros j Hj. apply Hfiles. by right.
Qed.

(** C5: a run that returns has made exactly [num_time_step * train_epoch]
    optimizer steps and written two artifacts in each of its [num_time_step]
    iterations; for [num_time_step = 0] no step is made and nothing is
    written, however the run ends; and the run does return when at least one
    epoch is configured, the executor fetches the loss and an output, and the
    data of times [start_time .. start_time + num_time_step] is on disk. *)
Theorem time_marching_counts (feeds0 : gmap string Tensor)
    (num_time_step : nat) (w : world) :
  (∀ c w',
     time_marching feeds0 num_time_step w = (inr c, w') →
     optimizer_steps (log w')
       = (optimizer_steps (log w) + num_time_step * train_epoch)%nat ∧
     artifact_writes (log w')
       = (artifact_writes (log w) + 2 * num_time_step)%nat) ∧
  (num_time_step = 0%nat →
     log (time_marching feeds0 num_time_step w).2 = log w) ∧
  ((0 < train_epoch)%nat →
   (∀ st fd, 2 ≤ length (exe_run st fd).2)%nat →
   is_Some (files (disk w) !! data_dir) →
   (∀ k, (k ≤ num_time_step)%nat →
         ∃ arr, files (disk w) !! npy_path (start_time + Z.of_nat k)
                = Some (NpyFile arr)) →
   ∃ c w', time_marching feeds0 num_time_step w = (inr c, w')).
Proof.
  split; [|split].
  - intros c w' Hrun. unfold time_marching in Hrun.
    apply bind_inr in Hrun as (c0 & w0 & Hinit & Hloop).
    apply init_carry_inr in Hinit as (_ & _ & _ & Hlog).
    apply time_loop_counts in Hloop as [Hsteps Hwrites].
    by rewrite Hsteps, Hwrites, Hlog, length_seq.
  - intros ->. unfold time_marching, init_carry, bind, on_disk, ret. simpl.
    by destruct (GetRealPhyInfo start_time (Some "physic") (disk w))
      as [[e|physic] d].
  - intros Hepoch Hfetch Hdir Hfiles.
    destruct (Hfiles 0%nat) as [arr0 Harr0]; [lia|].
    rewrite Z.add_0_r in Harr0.
    pose proof (GetRealPhyInfo_present start_time (Some "physic")
                  (disk w) arr0 Hdir Harr0) as Hreal.
    unfold time_marching, init_carry, bind at 1 2, on_disk, ret.
    rewrite Hreal.
    apply time_loop_completes; [done|done|].
    split; simpl; [done|].
    intros i Hi. apply elem_of_seq in Hi.
    replace (next_time_of i) with (start_time + Z.of_nat (S i))
      by (unfold next_time_of, time_step; lia).
    apply Hfiles. lia.
Qed.

(** *** More on the loop: what a run writes, feeds and reads *)

Lemma runs_on_no_writes (fd : gmap string Tensor) (evs : list event) :
  runs_on fd evs → filter is_write evs = [].
Proof.
  intros Hruns. apply runs_on_counts in Hruns as [_ Hw].
  unfold artifact_writes in Hw. by apply nil_length_inv.
Qed.

Lemma step_writes_are_writes (i : nat) (d : list (list (list A))) :
  filter is_write (step_writes i d) = step_writes i d.
Proof.
  unfold step_writes. by rewrite !filter_cons_True, filter_nil by done.
Qed.

(** The artifacts of a loop: one pair per index, in order, both writers of a
    pair receiving the same data. *)
Lemma time_loop_writes (l : list nat) (c c' : carry) (w w' : world) :
  time_loop l c w = (inr c', w') →
  ∃ datas,
    length datas = length l ∧
    filter is_write (log w')
      = filter is_write (log w) ++ mjoin (zip_with step_writes l datas).
Proof.
  revert c w. induction l as [|i l IH]; intros c w; simpl.
  - unfold ret. intros [= _ <-]. exists []. by rewrite app_nil_r.
  - intros Hloop. apply bind_inr in Hloop as (c1 & w1 & Hbody & Hrest).
    apply IH in Hrest as (datas & Hlen & Hwrites).
    apply time_step_body_inr in Hbody
      as (real & d & st & evs & fetched & ni & nu & _ & _ & Hruns
          & _ & _ & _ & _ & ->).
    exists (drop 1 fetched :: datas). split; [simpl; by rewrite Hlen|].
    rewrite Hwrites. simpl.
    rewrite !filter_app, (runs_on_no_writes _ _ Hruns), step_writes_are_writes.
    simpl. by rewrite <- !app_assoc.
Qed.

Lemma artifact_name_inj (prefix_name : string) :
  Inj (=) (=) (fun i : nat => prefix_name +:+ pretty (next_time_of i)).
Proof.
  intros i j Heq. apply (inj (String.app prefix_name)) in Heq.
  apply (inj pretty) in Heq. unfold next_time_of, time_step in Heq. lia.
Qed.

(** A run that returns has written, for each index [i] in order, the mesh
    file [vtk_filename + str(start_time + (i + 1) * time_step)] and the array
    file [solution_filename + str(...)] of the same time, both with the same
    data; within a run no two mesh files and no two array files share a
    name. *)
Theorem artifacts_of_a_run (feeds0 : gmap string Tensor)
    (num_time_step : nat) (c : carry) (w w' : world) :
  time_marching feeds0 num_time_step w = (inr c, w') →
  (∃ datas,
     length datas = num_time_step ∧
     filter is_write (log w')
       = filter is_write (log w)
         ++ mjoin (zip_with step_writes (seq 0 num_time_step) datas)) ∧
  NoDup ((fun i => vtk_filename +:+ pretty (next_time_of i))
           <$> seq 0 num_time_step) ∧
  NoDup ((fun i => solution_filename +:+ pretty (next_time_of i))
           <$> seq 0 num_time_step).
Proof.
  intros Hrun. split; [|split].
  - unfold time_marching in Hrun.
    apply bind_inr in Hrun as (c0 & w0 & Hinit & Hloop).
    apply init_carry_inr in Hinit as (_ & _ & _ & Hlog).
    apply time_loop_writes in Hloop as (datas & Hlen & Hwrites).
    exists datas. rewrite length_seq in Hlen. by rewrite Hwrites, Hlog.
  - apply (@NoDup_fmap_2 _ _ _ (artifact_name_inj vtk_filename)), NoDup_seq.
  - apply (@NoDup_fmap_2 _ _ _ (artifact_name_inj solution_filename)), NoDup_seq.
Qed.

(** A key that is not of the form ['label' + str(k)]. *)
Definition not_a_label (key : string) : Prop :=
  ∀ k : nat, key ≠ "label" +:+ pretty k.

(** Every executor run of [evs] is fed [m]'s value under [key]. *)
Definition fed_like (key : string) (m : gmap string Tensor)
    (evs : list event) : Prop :=
  Forall (fun e => ∀ fd fetched, e = ExeRun fd fetched → fd !! key = m !! key)
         evs.

Lemma time_loop_feeds (l : list nat) (c c' : carry) (w w' : world)
    (key : string) :
  not_a_label key →
  time_loop l c w = (inr c', w') →
  feeds c' !! key = feeds c !! key ∧
  ∃ evs, log w' = log w ++ evs ∧ fed_like key (feeds c) evs.
Proof.
  intros Hkey. revert c w. induction l as [|i l IH]; intros c w; simpl.
  - unfold ret. intros [= <- <-]. split; [done|].
    exists []. split; [by rewrite app_nil_r|constructor].
  - intros Hloop. apply bind_inr in Hloop as (c1 & w1 & Hbody & Hrest).
    apply IH in Hrest as (Hfeeds & evs' & Hlog' & Hfed').
    apply time_step_body_inr in Hbody
      as (real & d & st & evs & fetched & ni & nu & _ & _ & Hruns
          & _ & _ & _ & -> & ->).
    simpl in *.
    assert (∀ ls, feed_labels ls (feeds c) !! key = feeds c !! key) as Hsame.
    { intros ls. apply feed_labels_from_other. intros k _. apply Hkey. }
    rewrite Hsame in Hfeeds. split; [done|].
    exists ((evs ++ step_writes i (drop 1 fetched)) ++ evs').
    split; [by rewrite Hlog', <- !app_assoc|].
    unfold fed_like in *. rewrite !Forall_app. repeat split.
    + eapply Forall_impl; [exact Hruns|].
      intros e [st' ->] fd' f' [= <- _]. apply Hsame.
    + unfold step_writes. repeat constructor; intros fd' f'; discriminate.
    + eapply Forall_impl; [exact Hfed'|].
      intros e He fd' f' Heq. rewrite (He fd' f' Heq). apply Hsame.
Qed.

(** The loop only ever assigns the keys ['label0'], ['label1'], ...: under
    any other key (the network inputs placed at line 198), the feed
    dictionary a run ends with, and the one every optimizer step of the run
    was given, hold what the run started with. *)
Theorem inputs_stay_fed (feeds0 : gmap string Tensor)
    (num_time_step : nat) (c : carry) (w w' : world) (key : string) :
  not_a_label key →
  time_marching feeds0 num_time_step w = (inr c, w') →
  feeds c !! key = feeds0 !! key ∧
  ∃ evs, log w' = log w ++ evs ∧ fed_like key feeds0 evs.
Proof.
  intros Hkey Hrun. unfold time_marching in Hrun.
  apply bind_inr in Hrun as (c0 & w0 & Hinit & Hloop).
  apply (time_loop_feeds _ _ _ _ _ key Hkey) in Hloop as (Hfeeds & evs & Hlog & Hfed).
  unfold init_carry in Hinit.
  apply bind_inr in Hinit as (physic & w1 & Hphys & Hret).
  apply on_disk_inr in Hphys as (d & _ & ->).
  unfold ret in Hret. injection Hret as <- <-. simpl in *.
  split; [done|]. by exists evs.
Qed.

(** The iterations read the dataset files and write none of them. *)
Lemma time_loop_loads (l : list nat) (c c' : carry) (w w' : world) :
  is_Some (files (disk w) !! data_dir) →
  time_loop l c w = (inr c', w') →
  files (disk w') = files (disk w) ∧
  io_log (disk w')
    = io_log (disk w) ++ ((fun i => NpLoad (npy_path (next_time_of i))) <$> l).
Proof.
  revert c w. induction l as [|i l IH]; intros c w Hdir; simpl.
  - unfold ret. intros [= _ <-]. by rewrite app_nil_r.
  - intros Hloop. apply bind_inr in Hloop as (c1 & w1 & Hbody & Hrest).
    apply time_step_body_inr in Hbody
      as (real & d & st & evs & fetched & ni & nu & Hreal & _ & _
          & _ & _ & _ & _ & ->).
    apply (GetRealPhyInfo_inr_with_directory _ _ _ _ _ Hdir) in Hreal
      as (arr & _ & _ & ->).
    apply IH in Hrest as [Hfiles Hlog]; [|done]. simpl in *.
    split; [done|]. by rewrite Hlog, <- app_assoc.
Qed.

(** From line 222 on, with the dataset directory in place, a run that
    returns has called the accessor's disk and network functions for this
    only: the loads of the files of times [start_time], [start_time + 1],
    ..., [start_time + num_time_step], each once and in this order; it has
    downloaded and extracted nothing. *)
Theorem loads_of_a_run (feeds0 : gmap string Tensor)
    (num_time_step : nat) (c : carry) (w w' : world) :
  files (disk w) !! data_dir = Some Directory →
  time_marching feeds0 num_time_step w = (inr c, w') →
  io_log (disk w')
    = io_log (disk w)
      ++ ((fun k => NpLoad (npy_path (start_time + Z.of_nat k)))
            <$> seq 0 (S num_time_step)).
Proof.
  intros Hdirectory Hrun.
  assert (is_Some (files (disk w) !! data_dir)) as Hdir by (by rewrite Hdirectory).
  unfold time_marching, init_carry in Hrun.
  apply bind_inr in Hrun as (c0 & w0 & Hinit & Hloop).
  apply bind_inr in Hinit as (physic & w1 & Hphys & Hret).
  apply on_disk_inr in Hphys as (d & Hphys & ->).
  apply (GetRealPhyInfo_inr_with_directory _ _ _ _ _ Hdir) in Hphys
    as (arr & _ & _ & ->).
  unfold ret in Hret. injection Hret as <- <-.
  apply time_loop_loads in Hloop as [Hfiles Hlog]; [|done]. simpl in *.
  rewrite Hlog, <- app_assoc. f_equal.
  rewrite Z.add_0_r. simpl. f_equal.
  rewrite <- fmap_S_seq, <- list_fmap_compose.
  apply list_fmap_ext. intros _ i _. simpl.
  do 2 f_equal. unfold next_time_of, time_step. lia.
Qed.

(** When the file of the iteration's time is missing (the dataset directory
    being in place, as a directory), the iteration raises [FileNotFoundError]
    for that file before anything else happens: no optimizer step has run,
    nothing has been written, the executor is untouched. *)
Theorem time_step_body_missing_data (i : nat) (c : carry) (w : world) :
  files (disk w) !! data_dir = Some Directory →
  files (disk w) !! npy_path (next_time_of i) = None →
  time_step_body i c w =
  (inl (FileNotFoundError (npy_path (next_time_of i))),
   {| disk := {| files := files (disk w); remote := remote (disk w);
                 io_log := io_log (disk w)
                           ++ [NpLoad (npy_path (next_time_of i))] |};
      exe := exe w; log := log w |}).
Proof.
  intros Hdir Hfile. unfold time_step_body. fold (next_time_of i).
  unfold bind at 1. unfold on_disk.
  by rewrite (GetRealPhyInfo_missing_file _ _ _ Hdir Hfile).
Qed.

End Driver.

(** *** A run configured with no epoch *)

Section NoEpoch.
Context {A : Type} `{Scalar A}.
Variables Tensor W Attr : Type.
Variables vtk_filename solution_filename : string.
Variable n_interior : nat.
Variable labels : list Tensor.
Variable labels_attr : Attr.
Variable feed_data_interior_cur : list Tensor → Attr → list (list A) → list Tensor.
Variable feed_data_user_cur : list Tensor → Attr → list (list A) → list Tensor.
Variable feed_data_user_next : list Tensor → Attr → list (list A) → list Tensor.
Variable data_parallel_partition : list Tensor → nat → list Tensor.
Variable exe_run : W → gmap string Tensor → W * list (list (list A)).

(** With [train_epoch = 0] and at least one time step, the run never
    returns: the first iteration skips the epoch loop and reads [out], which
    no [exe.run] has bound.  It raises without an optimizer step or a write;
    when the data of [start_time] and of the first step load, the exception is
    [NameError] for [out]. *)
Theorem no_epoch_run_raises (feeds0 : gmap string Tensor)
    (n : nat) (w : world Tensor W) :
  ∃ e w',
    time_marching Tensor W Attr vtk_filename solution_filename 0 n_interior
      labels labels_attr feed_data_interior_cur feed_data_user_cur
      feed_data_user_next data_parallel_partition exe_run feeds0 (S n) w
      = (inl e, w') ∧
    log _ _ w' = log _ _ w ∧
    exe _ _ w' = exe _ _ w ∧
    (∀ physic d1 real d2,
       GetRealPhyInfo start_time (Some "physic") (disk _ _ w)
         = (inr physic, d1) →
       GetRealPhyInfo (next_time_of 0) (Some "physic") d1 = (inr real, d2) →
       e = NameError "out").
Proof.
  unfold time_marching, init_carry, bind at 1 2, on_disk, ret.
  destruct (GetRealPhyInfo start_time (Some "physic") (disk _ _ w))
    as [[e|physic] d1] eqn:Hfirst.
  - eexists _, _. repeat split. intros; discriminate.
  - simpl. unfold bind at 1, time_step_body. fold (next_time_of 0).
    unfold bind at 1, on_disk. simpl.
    destruct (GetRealPhyInfo (next_time_of 0) (Some "physic") d1)
      as [[e|real] d2] eqn:Hsecond.
    + eexists _, _. repeat split. intros ? ? ? ? [= _ <-] Hs.
      rewrite Hsecond in Hs. discriminate.
    + eexists _, _. repeat split.
Qed.

End NoEpoch.

(** *** A small run: two interior points, one reference point *)

(** Ten label slots; the interior labels go to slot 0, the current and next
    reference labels to slots 7 and 3; one worker, so nothing is cut. *)
Definition demo_labels : list (list (list Z)) := replicate 10 [].

Definition demo_interior_cur (ls : list (list (list Z))) (_ : unit)
    (m : list (list Z)) : list (list (list Z)) := <[0%nat := m]> ls.

Definition demo_user_cur (ls : list (list (list Z))) (_ : unit)
    (m : list (list Z)) : list (list (list Z)) := <[7%nat := m]> ls.

Definition demo_user_next (ls : list (list (list Z))) (_ : unit)
    (m : list (list Z)) : list (list (list Z)) := <[3%nat := m]> ls.

Definition demo_partition (ls : list (list (list Z))) (_ : nat)
  : list (list (list Z)) := ls.

(** An executor that counts its runs and fetches the loss, the interior
    output (2 x 4) and the reference output (1 x 4). *)
Definition demo_exe_run (st : nat) (_ : gmap string (list (list Z)))
  : nat * list (list (list Z)) :=
  (S st, [[[Z.of_nat st]]; [[1; 2; 3; 4]; [5; 6; 7; 8]]; [[9; 10; 11; 12]]]).

Definition demo_disk : fs_world (A:=Z) := {|
  files := <[ npy_path 100 := NpyFile [[1; 2; 3; 4; 5; 6; 7]] ]>
           (<[ npy_path 101 := NpyFile [[1; 2; 3; 4; 5; 6; 8]] ]>
           (<[ npy_path 102 := NpyFile [[1; 2; 3; 4; 5; 6; 9]] ]>
           {[ data_dir := Directory ]}));
  remote := fun _ => None;
  io_log := []
|}.

Definition demo_world : world (A:=Z) (list (list Z)) nat :=
  {| disk := demo_disk; exe := 0%nat; log := [] |}.

(** The loop body and the whole run with [train_epoch] epochs. *)
Definition demo_body (train_epoch : nat) :=
  time_step_body (A:=Z) (list (list Z)) nat unit "vtk_" "npy_" train_epoch
    demo_labels tt demo_interior_cur demo_user_cur demo_user_next
    demo_partition demo_exe_run.

Definition demo_marching (train_epoch : nat) :=
  time_marching (A:=Z) (list (list Z)) nat unit "vtk_" "npy_" train_epoch 2
    demo_labels tt demo_interior_cur demo_user_cur demo_user_next
    demo_partition demo_exe_run ∅.

Definition demo_carry : carry (A:=Z) (list (list Z)) := {|
  current_interior := [[0; 0; 0]; [0; 0; 0]];
  current_user := [[4; 5; 6]];
  out := None;
  feeds := ∅
|}.

(** Two epochs on the demo executor: the second step fetches the 2 x 4
    interior output and the 1 x 4 reference output, and the iteration carries
    their first three columns. *)
Lemma carry_is_sliced_final_outputs_witness :
  ∃ c' w',
    demo_body 2 0 demo_carry demo_world = (inr c', w') ∧
    last_fetched _ (log _ _ w')
      = Some [[[1]]; [[1; 2; 3; 4]; [5; 6; 7; 8]]; [[9; 10; 11; 12]]] ∧
    current_interior _ c' = [[1; 2; 3]; [5; 6; 7]] ∧
    current_user _ c' = [[9; 10; 11]].
Proof.
  destruct (demo_body 2 0 demo_carry demo_world) as [[e|c'] w'] eqn:Hrun;
    [vm_compute in Hrun; discriminate|].
  exists c', w'. split; [reflexivity|].
  destruct (carry_is_sliced_final_outputs (A:=Z) (list (list Z)) nat unit
              "vtk_" "npy_" 2 demo_labels tt demo_interior_cur demo_user_cur
              demo_user_next demo_partition demo_exe_run
              0 demo_carry c' demo_world w' eq_refl Hrun)
    as (fetched & ni & nu & Hlast & _ & Hni & Hnu & Hci & Hcu & _).
  vm_compute in Hrun. injection Hrun as <- <-.
  vm_compute in Hlast. injection Hlast as <-.
  vm_compute in Hni. injection Hni as <-.
  vm_compute in Hnu. injection Hnu as <-.
  split; [reflexivity|]. split; [exact Hci|exact Hcu].
Defined.

Lemma demo_interior_output_shape :
  interior_output_shape (A:=Z) (list (list Z)) nat 2 demo_exe_run.
Proof.
  intros st fd. exists [[1; 2; 3; 4]; [5; 6; 7; 8]].
  split; [reflexivity|]. split; [reflexivity|]. repeat constructor.
Defined.

(** On one worker with two interior points the label that enters iteration
    1 is 2 x 3. *)
Lemma interior_label_shape_follows_executor_witness :
  ∃ c w',
    demo_marching 2 1 demo_world = (inr c, w') ∧
    current_interior _ c = [[1; 2; 3]; [5; 6; 7]] ∧
    has_shape 2 3 (current_interior _ c) ∧
    demo_marching 2 2 demo_world
      = bind (demo_body 2 1 c) (time_loop (A:=Z) (list (list Z)) nat unit
               "vtk_" "npy_" 2 demo_labels tt demo_interior_cur demo_user_cur
               demo_user_next demo_partition demo_exe_run
               (seq 2 (2 - 2))) w'.
Proof.
  destruct (demo_marching 2 1 demo_world) as [[e|c] w'] eqn:Hrun;
    [vm_compute in Hrun; discriminate|].
  exists c, w'. split; [reflexivity|].
  assert (1 < 2)%nat as Hlt by lia.
  pose proof (proj2 (proj2
    (interior_label_shape_follows_executor (A:=Z) (list (list Z)) nat unit
       "vtk_" "npy_" 2 2 demo_labels tt demo_interior_cur demo_user_cur
       demo_user_next demo_partition demo_exe_run ∅))
    demo_interior_output_shape 2%nat 1%nat c demo_world w' Hlt Hrun) as Hshape.
  split; [|exact Hshape].
  vm_compute in Hrun. by injection Hrun as <- _.
Defined.

(** One worker of a data-parallel run over four interior points: the inputs
    were cut at line 197 and the labels are cut at line 241, here to the
    first two rows, so the interior output this worker's [exe.run] fetches has
    the two rows of its shard. *)
Definition shard_partition (ls : list (list (list Z))) (_ : nat)
  : list (list (list Z)) := (fun label : list (list Z) => take 2 label) <$> ls.

Definition shard_marching (num_time_step : nat) :=
  time_marching (A:=Z) (list (list Z)) nat unit "vtk_" "npy_" 2 4
    demo_labels tt demo_interior_cur demo_user_cur demo_user_next
    shard_partition demo_exe_run ∅ num_time_step.

(** C4, as stated, fails: with four interior points the label that enters
    iteration 0 is 4 x 3, but the one that enters iteration 1 has the two rows
    of the fetched output. *)
Lemma interior_label_rows_of_a_shard :
  current_interior _ <$> returned (shard_marching 0 demo_world)
    = Some [[0; 0; 0]; [0; 0; 0]; [0; 0; 0]; [0; 0; 0]] ∧
  current_interior _ <$> returned (shard_marching 1 demo_world)
    = Some [[1; 2; 3]; [5; 6; 7]].
Proof. vm_compute. done. Qed.

(** The run of two time steps with two epochs each: four optimizer steps,
    four artifacts, named after times 101 and 102. *)
Example demo_run_counts :
  optimizer_steps _ (log _ _ (demo_marching 2 2 demo_world).2) = 4%nat ∧
  filter (is_write _) (log _ _ (demo_marching 2 2 demo_world).2) =
    [SaveVtk _ "vtk_101" [[[1; 2; 3; 4]; [5; 6; 7; 8]]; [[9; 10; 11; 12]]];
     SaveNpy _ "npy_101" [[[1; 2; 3; 4]; [5; 6; 7; 8]]; [[9; 10; 11; 12]]];
     SaveVtk _ "vtk_102" [[[1; 2; 3; 4]; [5; 6; 7; 8]]; [[9; 10; 11; 12]]];
     SaveNpy _ "npy_102" [[[1; 2; 3; 4]; [5; 6; 7; 8]]; [[9; 10; 11; 12]]]].
Proof. vm_compute. done. Qed.

(** With no epoch configured the first iteration reads [out] before any
    [exe.run] has bound it: the run aborts there, outside what C5 counts. *)
Example demo_zero_epochs_raises :
  (demo_marching 0 2 demo_world).1 = inl (NameError "out") ∧
  log _ _ (demo_marching 0 2 demo_world).2 = [].
Proof. vm_compute. done. Qed.

Lemma time_marching_counts_witness :
  ∃ c w',
    demo_marching 2 2 demo_world = (inr c, w') ∧
    optimizer_steps _ (log _ _ w') = (0 + 2 * 2)%nat ∧
    artifact_writes _ (log _ _ w') = (0 + 2 * 2)%nat.
Proof.
  destruct (demo_marching 2 2 demo_world) as [[e|c] w'] eqn:Hrun;
    [vm_compute in Hrun; discriminate|].
  exists c, w'. split; [reflexivity|].
  exact (proj1 (time_marching_counts (A:=Z) (list (list Z)) nat unit
                  "vtk_" "npy_" 2 2 demo_labels tt demo_interior_cur
                  demo_user_cur demo_user_next demo_partition demo_exe_run
                  ∅ 2 demo_world) c w' Hrun).
Defined.

(** The same run started from a feed dictionary holding one network input. *)
Definition demo_feeds0 : gmap string (list (list Z)) :=
  {[ "input0" := [[0; 0; 0]; [1; 1; 1]] ]}.

Definition demo_marching_fed (num_time_step : nat) :=
  time_marching (A:=Z) (list (list Z)) nat unit "vtk_" "npy_" 2 2
    demo_labels tt demo_interior_cur demo_user_cur demo_user_next
    demo_partition demo_exe_run demo_feeds0 num_time_step.

Lemma demo_directory_present :
  files (disk _ _ demo_world) !! data_dir = Some Directory.
Proof. vm_compute. reflexivity. Defined.

Lemma artifacts_of_a_run_witness :
  ∃ c w' datas,
    demo_marching_fed 2 demo_world = (inr c, w') ∧
    length datas = 2%nat ∧
    filter (is_write _) (log _ _ w')
      = mjoin (zip_with (step_writes _ "vtk_" "npy_") (seq 0 2) datas).
Proof.
  destruct (demo_marching_fed 2 demo_world) as [[e|c] w'] eqn:Hrun;
    [vm_compute in Hrun; discriminate|].
  destruct (artifacts_of_a_run (A:=Z) (list (list Z)) nat unit
              "vtk_" "npy_" 2 2 demo_labels tt demo_interior_cur
              demo_user_cur demo_user_next demo_partition demo_exe_run
              demo_feeds0 2 c demo_world w' Hrun)
    as [(datas & Hlen & Hwrites) _].
  exists c, w', datas. repeat split; assumption.
Defined.

Lemma demo_input0_not_a_label : not_a_label "input0".
Proof. intros k Hk. discriminate. Defined.

Lemma inputs_stay_fed_witness :
  ∃ c w',
    demo_marching_fed 2 demo_world = (inr c, w') ∧
    feeds _ c !! "input0" = Some [[0; 0; 0]; [1; 1; 1]].
Proof.
  destruct (demo_marching_fed 2 demo_world) as [[e|c] w'] eqn:Hrun;
    [vm_compute in Hrun; discriminate|].
  exists c, w'. split; [reflexivity|].
  destruct (inputs_stay_fed (A:=Z) (list (list Z)) nat unit
              "vtk_" "npy_" 2 2 demo_labels tt demo_interior_cur
              demo_user_cur demo_user_next demo_partition demo_exe_run
              demo_feeds0 2 c demo_world w' "input0"
              demo_input0_not_a_label Hrun) as [Hfeeds _].
  rewrite Hfeeds. apply lookup_singleton_eq.
Defined.

Lemma loads_of_a_run_witness :
  ∃ c w',
    demo_marching_fed 2 demo_world = (inr c, w') ∧
    io_log (disk _ _ w')
      = [NpLoad (npy_path 100); NpLoad (npy_path 101); NpLoad (npy_path 102)].
Proof.
  destruct (demo_marching_fed 2 demo_world) as [[e|c] w'] eqn:Hrun;
    [vm_compute in Hrun; discriminate|].
  exists c, w'. split; [reflexivity|].
  pose proof (loads_of_a_run (A:=Z) (list (list Z)) nat unit
              "vtk_" "npy_" 2 2 demo_labels tt demo_interior_cur
              demo_user_cur demo_user_next demo_partition demo_exe_run
              demo_feeds0 2 c demo_world w' demo_directory_present Hrun)
    as Hloads.
  rewrite Hloads. reflexivity.
Defined.

Lemma time_step_body_missing_data_witness :
  (demo_body 2 2 demo_carry demo_world).1
    = inl (FileNotFoundError (npy_path 103)) ∧
  log _ _ (demo_body 2 2 demo_carry demo_world).2 = [].
Proof.
  unfold demo_body.
  rewrite (time_step_body_missing_data (A:=Z) (list (list Z)) nat unit
             "vtk_" "npy_" 2 demo_labels tt demo_interior_cur demo_user_cur
             demo_user_next demo_partition demo_exe_run 2 demo_carry
             demo_world demo_directory_present);
    [split; reflexivity|vm_compute; reflexivity].
Defined.

End Driver.

(** ** The visualizers (ppsci/visualize/visualizer.py) *)

Module Visualize.
Section Visualize.
Context {A : Type}.

(** The type of an output expression ([Callable]); never called by [save]. *)
Variable Callable : Type.

(** An [np.ndarray]: its shape and its entries in row-major order. *)
Record ndarray : Type := { shape : list nat; data : list A }.

(** The number of entries of an array of shape [sh]. *)
Definition size_of (sh : list nat) : nat := foldr Nat.mul 1%nat sh.

(** [value[i]]: [None] stands for the [IndexError] of a 0-d array or of an
    index past the first axis. *)
Definition getitem (value : ndarray) (i : nat) : option ndarray :=
  match shape value with
  | [] => None
  | n :: rest =>
      if decide (i < n)%nat
      then Some {| shape := rest;
                   data := take (size_of rest)
                             (drop (i * size_of rest) (data value)) |}
      else None
  end.

(** The calls to the writers of [ppsci.visualize.plot] and
    [ppsci.visualize.vtu], with their arguments in order.  A call is recorded
    as made; what the writer does with it is the subject of [perform]
    below. *)
Inductive writer_call : Type :=
| save_plot_from_1d_dict (filename : string) (data_dict : gmap string ndarray)
    (coord_keys output_keys : list string) (num_timestamps : nat)
| save_plot_from_3d_dict (filename : string) (data_dict : gmap string ndarray)
    (output_keys : list string) (num_timestamps : nat)
| save_vtu_from_dict (filename : string) (data_dict : gmap string ndarray)
    (input_keys output_keys : list string) (num_timestamps : nat)
| save_plot_from_2d_dict (filename : string) (data_dict : gmap string ndarray)
    (output_keys : list string) (num_timestamps stride : nat)
    (xticks yticks : option (list A)).

(** What the statements of a [save] do as long as the writers return: the
    writer calls made, in order, and the exception raised by the adapter's
    own code, if any. *)
Record outcome : Type := { calls : list writer_call; raised : option exn }.

Definition done_with (cs : list writer_call) : outcome :=
  {| calls := cs; raised := None |}.

Definition raising (e : exn) : outcome := {| calls := []; raised := Some e |}.

(** The attributes every visualizer holds. *)
Record Visualizer : Type := {
  input_dict : list (string * ndarray);
  input_keys : list string;
  output_expr : list (string * Callable);
  output_keys : list string;
  batch_size : nat;
  num_timestamps : nat;
  prefix : string
}.

(** Modelled from the spec: [base.Visualizer.__init__] is not part of the
    excerpt.  A visualizer is constructed with an input dictionary, an
    output-expression mapping, a batch size, a timestamp count and a prefix;
    [output_keys] (and likewise [input_keys]) are the mapping's keys in
    declaration order, derived once. *)
Definition Visualizer_init (input_dict : list (string * ndarray))
    (output_expr : list (string * Callable))
    (batch_size num_timestamps : nat) (prefix : string) : Visualizer :=
  {| input_dict := input_dict;
     input_keys := input_dict.*1;
     output_expr := output_expr;
     output_keys := output_expr.*1;
     batch_size := batch_size;
     num_timestamps := num_timestamps;
     prefix := prefix |}.

(** The constructors; an argument left out in the call is [None] and takes
    the default of the signature. *)
Definition VisualizerScatter3D_init (input_dict : list (string * ndarray))
    (output_expr : list (string * Callable))
    (batch_size num_timestamps : option nat) (prefix : option string)
  : Visualizer :=
  Visualizer_init input_dict output_expr (default 64%nat batch_size)
    (default 1%nat num_timestamps) (default "plot3d_scatter" prefix).

Definition VisualizerVtu_init (input_dict : list (string * ndarray))
    (output_expr : list (string * Callable))
    (batch_size num_timestamps : option nat) (prefix : option string)
  : Visualizer :=
  Visualizer_init input_dict output_expr (default 64%nat batch_size)
    (default 1%nat num_timestamps) (default "vtu" prefix).


Definition Visualizer3D_init (input_dict : list (string * ndarray))
    (output_expr : list (string * Callable))
    (batch_size num_timestamps : option nat) (prefix : option string)
  : Visualizer :=
  Visualizer_init input_dict output_expr (default 64%nat batch_size)
    (default 1%nat num_timestamps) (default "plot3d" prefix).

(** [VisualizerScatter1D] adds [coord_keys]; [Visualizer2DPlot] adds
    [stride], [xticks] and [yticks]. *)
Record VisualizerScatter1D : Type := {
  scatter1d_base : Visualizer;
  coord_keys : list string
}.

Record Visualizer2DPlot : Type := {
  plot2d_base : Visualizer;
  stride : nat;
  xticks : option (list A);
  yticks : option (list A)
}.

Definition VisualizerScatter1D_init (input_dict : list (string * ndarray))
    (coord_keys : list string) (output_expr : list (string * Callable))
    (batch_size num_timestamps : option nat) (prefix : option string)
  : VisualizerScatter1D :=
  {| scatter1d_base :=
       Visualizer_init input_dict output_expr (default 64%nat batch_size)
         (default 1%nat num_timestamps) (default "plot" prefix);
     coord_keys := coord_keys |}.


(** [{key: value for key, value in data_dict.items() if key in self.output_keys}] *)
Definition select_outputs (output_keys : list string)
    (data_dict : gmap string ndarray) : gmap string ndarray :=
  filter (fun kv => kv.1 ∈ output_keys) data_dict.

(** [{key: value[i] for key, value in data_dict.items()}]: raises as soon as
    one [value[i]] does. *)
Definition index_all (i : nat) (data_dict : gmap string ndarray)
  : option (gmap string ndarray) :=
  if decide (map_Forall (fun _ value => is_Some (getitem value i)) data_dict)
  then Some (omap (fun value => getitem value i) data_dict)
  else None.

(** [for i in range(...): cur_data_dict = ...; writer(filename + str(i),
    cur_data_dict, ...)] over the remaining indices. *)
Fixpoint for_each_batch (writer : string → gmap string ndarray → writer_call)
    (filename : string) (data_dict : gmap string ndarray)
    (indices : list nat) : outcome :=
  match indices with
  | [] => done_with []
  | i :: rest =>
      match index_all i data_dict with
      | None => raising IndexError
      | Some cur_data_dict =>
          let later := for_each_batch writer filename data_dict rest in
          {| calls := writer (filename +:+ pretty i) cur_data_dict :: calls later;
             raised := raised later |}
      end
  end.

(** [VisualizerScatter1D.save] *)
Definition VisualizerScatter1D_save (self : VisualizerScatter1D)
    (filename : string) (data_dict : gmap string ndarray) : outcome :=
  done_with [save_plot_from_1d_dict filename data_dict (coord_keys self)
               (output_keys (scatter1d_base self))
               (num_timestamps (scatter1d_base self))].

(** [VisualizerScatter3D.save] *)
Definition VisualizerScatter3D_save (self : Visualizer)
    (filename : string) (data_dict : gmap string ndarray) : outcome :=
  let data_dict := select_outputs (output_keys self) data_dict in
  match output_keys self !! 0%nat with
  | None => raising IndexError
  | Some key0 =>
      match data_dict !! key0 with
      | None => raising (KeyError key0)
      | Some value =>
          let dim := length (shape value) in
          if decide (dim = 3%nat)
          then (* value.shape=(B, T, 3) *)
            for_each_batch
              (fun name cur_data_dict =>
                 save_plot_from_3d_dict name cur_data_dict
                   (output_keys self) (num_timestamps self))
              filename data_dict
              (seq 0 (default 0%nat (shape value !! 0%nat)))
          else (* value.shape=(T, 3) *)
            done_with [save_plot_from_3d_dict filename data_dict
                         (output_keys self) (num_timestamps self)]
      end
  end.

(** [VisualizerVtu.save] *)
Definition VisualizerVtu_save (self : Visualizer)
    (filename : string) (data_dict : gmap string ndarray) : outcome :=
  done_with [save_vtu_from_dict filename data_dict (input_keys self)
               (output_keys self) (num_timestamps self)].

(** [Visualizer2DPlot.save] *)
Definition Visualizer2DPlot_save (self : Visualizer2DPlot)
    (filename : string) (data_dict : gmap string ndarray) : outcome :=
  let data_dict :=
    select_outputs (output_keys (plot2d_base self)) data_dict in
  match output_keys (plot2d_base self) !! 0%nat with
  | None => raising IndexError
  | Some key0 =>
      match data_dict !! key0 with
      | None => raising (KeyError key0)
      | Some value =>
          let dim := length (shape value) in
          if decide (dim = 4%nat)
          then (* value.shape=(B, T, H, W) *)
            for_each_batch
              (fun name cur_data_dict =>
                 save_plot_from_2d_dict name cur_data_dict
                   (output_keys (plot2d_base self))
                   (num_timestamps (plot2d_base self))
                   (stride self) (xticks self) (yticks self))
              filename data_dict
              (seq 0 (default 0%nat (shape value !! 0%nat)))
          else (* value.shape=(T, H, W) *)
            done_with [save_plot_from_2d_dict filename data_dict
                         (output_keys (plot2d_base self))
                         (num_timestamps (plot2d_base self))
                         (stride self) (xticks self) (yticks self)]
      end
  end.

(** [Visualizer3D.save] *)
Definition Visualizer3D_save (self : Visualizer)
    (filename : string) (data_dict : gmap string ndarray) : outcome :=
  done_with [save_vtu_from_dict filename data_dict (input_keys self)
               (output_keys self) (num_timestamps self)].

(** The shape the two plotting adapters share: filter, pick the value under
    the first output key, branch on its number of axes. *)
Definition save_by_rank (batched_rank : nat)
    (writer : string → gmap string ndarray → writer_call)
    (output_keys : list string)
    (filename : string) (data_dict : gmap string ndarray) : outcome :=
  let data_dict := select_outputs output_keys data_dict in
  match output_keys !! 0%nat with
  | None => raising IndexError
  | Some key0 =>
      match data_dict !! key0 with
      | None => raising (KeyError key0)
      | Some value =>
          if decide (length (shape value) = batched_rank)
          then for_each_batch writer filename data_dict
                 (seq 0 (default 0%nat (shape value !! 0%nat)))
          else done_with [writer filename data_dict]
      end
  end.

Lemma VisualizerScatter3D_save_by_rank (self : Visualizer)
    (filename : string) (data_dict : gmap string ndarray) :
  VisualizerScatter3D_save self filename data_dict =
  save_by_rank 3
    (fun name d => save_plot_from_3d_dict name d (output_keys self)
                     (num_timestamps self))
    (output_keys self) filename data_dict.
Proof. reflexivity. Qed.

Lemma Visualizer2DPlot_save_by_rank (self : Visualizer2DPlot)
    (filename : string) (data_dict : gmap string ndarray) :
  Visualizer2DPlot_save self filename data_dict =
  save_by_rank 4
    (fun name d => save_plot_from_2d_dict name d
                     (output_keys (plot2d_base self))
                     (num_timestamps (plot2d_base self))
                     (stride self) (xticks self) (yticks self))
    (output_keys (plot2d_base self)) filename data_dict.
Proof. reflexivity. Qed.

(** *** Facts about filtering and the batch loop *)

Lemma select_outputs_lookup_in (keys : list string)
    (data_dict : gmap string ndarray) (key : string) :
  key ∈ keys → select_outputs keys data_dict !! key = data_dict !! key.
Proof.
  intros Hin. unfold select_outputs. rewrite map_lookup_filter.
  destruct (data_dict !! key) as [v|]; simpl; [|done].
  by rewrite option_guard_True.
Qed.

Lemma select_outputs_lookup_Some (keys : list string)
    (data_dict : gmap string ndarray) (key : string) (v : ndarray) :
  select_outputs keys data_dict !! key = Some v →
  key ∈ keys ∧ data_dict !! key = Some v.
Proof.
  unfold select_outputs. intros Hv.
  apply map_lookup_filter_Some in Hv as [Hv Hin]. done.
Qed.

(** Only the entries under output keys reach the dispatch. *)
Lemma select_outputs_agree (keys : list string)
    (d1 d2 : gmap string ndarray) :
  (∀ key, key ∈ keys → d1 !! key = d2 !! key) →
  select_outputs keys d1 = select_outputs keys d2.
Proof.
  intros Hagree. apply map_eq. intros key. unfold select_outputs.
  rewrite !map_lookup_filter.
  destruct (decide (key ∈ keys)) as [Hin|Hout].
  - by rewrite (Hagree key Hin).
  - destruct (d1 !! key), (d2 !! key); simpl;
      rewrite ?option_guard_False by done; done.
Qed.

Lemma index_all_is_Some (i : nat) (data_dict : gmap string ndarray) :
  (∀ key v, data_dict !! key = Some v →
            ∃ n rest, shape v = n :: rest ∧ (i < n)%nat) →
  is_Some (index_all i data_dict).
Proof.
  intros Hall. unfold index_all. rewrite decide_True; [done|].
  intros key v Hv. destruct (Hall key v Hv) as (n & rest & Hshape & Hlt).
  unfold getitem. rewrite Hshape. by rewrite decide_True.
Qed.

(** A batch loop that ends without raising has called the writer once per
    index, in order, under the file name suffixed by the index. *)
Lemma for_each_batch_returns
    (writer : string → gmap string ndarray → writer_call)
    (filename : string) (data_dict : gmap string ndarray) (indices : list nat) :
  raised (for_each_batch writer filename data_dict indices) = None →
  length (calls (for_each_batch writer filename data_dict indices))
    = length indices ∧
  ∀ j i, indices !! j = Some i →
    ∃ cur_data_dict,
      index_all i data_dict = Some cur_data_dict ∧
      calls (for_each_batch writer filename data_dict indices) !! j
        = Some (writer (filename +:+ pretty i) cur_data_dict).
Proof.
  induction indices as [|i0 indices IH]; simpl; [done|].
  destruct (index_all i0 data_dict) as [cur|] eqn:Hcur; simpl; [|done].
  intros Hok. destruct (IH Hok) as [Hlen Hcalls]. split; [by rewrite Hlen|].
  intros [|j] i Hj; simpl in *.
  - injection Hj as <-. eauto.
  - by apply Hcalls.
Qed.

Lemma for_each_batch_completes
    (writer : string → gmap string ndarray → writer_call)
    (filename : string) (data_dict : gmap string ndarray) (indices : list nat) :
  (∀ i, i ∈ indices → is_Some (index_all i data_dict)) →
  raised (for_each_batch writer filename data_dict indices) = None.
Proof.
  induction indices as [|i0 indices IH]; intros Hall; simpl; [done|].
  destruct (Hall i0) as [cur ->]; [by left|]. simpl.
  apply IH. intros i Hi. apply Hall. by right.
Qed.

(** The two branches of the dispatch. *)
Lemma save_by_rank_batched (rank : nat)
    (writer : string → gmap string ndarray → writer_call)
    (keys : list string) (filename : string)
    (data_dict : gmap string ndarray) (key0 : string) (value : ndarray)
    (B : nat) (rest : list nat) :
  keys !! 0%nat = Some key0 →
  data_dict !! key0 = Some value →
  shape value = B :: rest →
  length (B :: rest) = rank →
  save_by_rank rank writer keys filename data_dict =
  for_each_batch writer filename (select_outputs keys data_dict) (seq 0 B).
Proof.
  intros Hkey Hvalue Hshape Hrank. unfold save_by_rank. rewrite Hkey.
  rewrite select_outputs_lookup_in by (by eapply list_elem_of_lookup_2).
  rewrite Hvalue, Hshape. by rewrite decide_True.
Qed.

Lemma save_by_rank_unbatched (rank : nat)
    (writer : string → gmap string ndarray → writer_call)
    (keys : list string) (filename : string)
    (data_dict : gmap string ndarray) (key0 : string) (value : ndarray) :
  keys !! 0%nat = Some key0 →
  data_dict !! key0 = Some value →
  length (shape value) ≠ rank →
  save_by_rank rank writer keys filename data_dict =
  done_with [writer filename (select_outputs keys data_dict)].
Proof.
  intros Hkey Hvalue Hrank. unfold save_by_rank. rewrite Hkey.
  rewrite select_outputs_lookup_in by (by eapply list_elem_of_lookup_2).
  rewrite Hvalue. by rewrite decide_False.
Qed.

(** *** C6: how many files the 3-D scatter adapter writes *)

(** C6: with the value under the first output key of shape (B, T, 3), a
    [save] that returns has called the 3-D plot writer exactly B times, call
    [i] under the file name suffixed by [i]; it does return when every
    output array has at least B entries along its first axis (always so for a
    single output).  With a value of shape (T, 3) it calls the writer exactly
    once, under the file name as given. *)
Theorem VisualizerScatter3D_save_file_count (self : Visualizer)
    (filename : string) (data_dict : gmap string ndarray)
    (key0 : string) (value : ndarray) :
  output_keys self !! 0%nat = Some key0 →
  data_dict !! key0 = Some value →
  (∀ B T, shape value = [B; T; 3%nat] →
     (raised (VisualizerScatter3D_save self filename data_dict) = None →
        length (calls (VisualizerScatter3D_save self filename data_dict)) = B ∧
        ∀ i, (i < B)%nat →
          ∃ cur_data_dict,
            index_all i (select_outputs (output_keys self) data_dict)
              = Some cur_data_dict ∧
            calls (VisualizerScatter3D_save self filename data_dict) !! i
              = Some (save_plot_from_3d_dict (filename +:+ pretty i)
                        cur_data_dict (output_keys self)
                        (num_timestamps self))) ∧
     ((∀ key v, key ∈ output_keys self → data_dict !! key = Some v →
                ∃ n rest, shape v = n :: rest ∧ (B ≤ n)%nat) →
      raised (VisualizerScatter3D_save self filename data_dict) = None)) ∧
  (∀ T, shape value = [T; 3%nat] →
     VisualizerScatter3D_save self filename data_dict =
     done_with [save_plot_from_3d_dict filename
                  (select_outputs (output_keys self) data_dict)
                  (output_keys self) (num_timestamps self)]).
Proof.
  intros Hkey Hvalue. rewrite VisualizerScatter3D_save_by_rank. split.
  - intros B T Hshape.
    rewrite (save_by_rank_batched 3 _ _ _ _ key0 value B [T; 3%nat])
      by done.
    split.
    + intros Hok. apply for_each_batch_returns in Hok as [Hlen Hcalls].
      rewrite length_seq in Hlen. split; [done|].
      intros i Hi. apply (Hcalls i i). by apply lookup_seq_lt.
    + intros Hall. apply for_each_batch_completes.
      intros i Hi. apply elem_of_seq in Hi. apply index_all_is_Some.
      intros key v Hv. apply select_outputs_lookup_Some in Hv as [Hin Hv].
      destruct (Hall key v Hin Hv) as (n & rest & Hn & Hle).
      exists n, rest. split; [done|lia].
  - intros T Hshape.
    rewrite (save_by_rank_unbatched 3 _ _ _ _ key0 value);
      [reflexivity|done|done|by rewrite Hshape].
Qed.

(** *** C7: ranks outside the documented cases *)


(** What a [save] comes to once its calls are run by the writers: the calls
    that returned, each having written its file, and the exception that ended
    the save, if any. *)
Record performed : Type := {
  written : list writer_call;
  failure : option exn
}.

(** No [save] has a [try]: a writer that raises ends the save at that call,
    with the writer's exception.  [response call] is [None] when the writer
    returns from [call] and [Some e] when it raises [e]; [ending] is how the
    adapter's own code ends after the calls. *)
Fixpoint perform_calls (response : writer_call → option exn)
    (cs : list writer_call) (ending : option exn) : performed :=
  match cs with
  | [] => {| written := []; failure := ending |}
  | call :: rest =>
      match response call with
      | Some e => {| written := []; failure := Some e |}
      | None =>
          let later := perform_calls response rest ending in
          {| written := call :: written later; failure := failure later |}
      end
  end.

Definition perform (response : writer_call → option exn) (o : outcome)
  : performed :=
  perform_calls response (calls o) (raised o).

(** Every array under an output key has [rank] axes. *)
Definition axes_ok (rank : nat) (data_dict : gmap string ndarray)
    (output_keys : list string) : bool :=
  forallb (fun key => match data_dict !! key with
                      | Some value => bool_decide (length (shape value) = rank)
                      | None => true
                      end)
          output_keys.

(** Modelled from the spec: the writers of [ppsci.visualize.plot] are not
    part of the excerpt.  The spec's error taxonomy has an output array whose
    number of axes is neither the unbatched nor the batched one fail loudly
    (UnsupportedArrayRank) instead of being mis-plotted.  The adapters strip
    the batch axis before they call, so the 3-D scatter writer plots arrays of
    two axes (time x 3) and the 2-D plot writer arrays of three axes
    (time x height x width); handed, under an output key, an array with
    another number of axes, the writer raises before it writes.  The spec
    asks nothing of the 1-D writer and of the mesh writer. *)
Definition plot_writer (call : writer_call) : option exn :=
  match call with
  | save_plot_from_3d_dict _ data_dict output_keys _ =>
      if axes_ok 2 data_dict output_keys then None
      else Some UnsupportedArrayRank
  | save_plot_from_2d_dict _ data_dict output_keys _ _ _ _ =>
      if axes_ok 3 data_dict output_keys then None
      else Some UnsupportedArrayRank
  | save_plot_from_1d_dict _ _ _ _ _ | save_vtu_from_dict _ _ _ _ _ => None
  end.


(** A save that comes to no failure has written every call its code makes,
    and its code raised nothing. *)
Lemma perform_returns (response : writer_call → option exn) (o : outcome) :
  failure (perform response o) = None →
  written (perform response o) = calls o ∧ raised o = None.
Proof.
  unfold perform. induction (calls o) as [|call cs IH]; simpl; [done|].
  destruct (response call); simpl; [done|].
  intros Hok. destruct (IH Hok) as [-> Hraised]. done.
Qed.

(** A save that fails does so in a writer, before all calls are written, or
    in the adapter's own code after every call made was written. *)
Lemma perform_calls_failure (response : writer_call → option exn)
    (cs : list writer_call) (ending : option exn) (e : exn) :
  failure (perform_calls response cs ending) = Some e →
  (∃ call, call ∈ cs ∧ response call = Some e ∧
           (length (written (perform_calls response cs ending)) < length cs)%nat)
  ∨ (ending = Some e ∧ written (perform_calls response cs ending) = cs).
Proof.
  induction cs as [|call cs IH]; simpl; [by right|].
  destruct (response call) as [e'|] eqn:Hcall; simpl.
  - intros [= ->]. left. exists call. split; [by left|]. split; [done|lia].
  - intros Hfail. destruct (IH Hfail) as [(c & Hin & Hc & Hlt)|[Hend Hall]].
    + left. exists c. split; [by right|]. split; [done|lia].
    + right. by rewrite Hall.
Qed.


(** *** C9: the two mesh exporters *)

(** C9: for the same constructor arguments, file name and data, the two
    mesh exporters make the same single [save_vtu_from_dict] call; the objects
    agree on every attribute but [prefix], which defaults to "vtu" for one
    and "plot3d" for the other. *)
Theorem VisualizerVtu_Visualizer3D_same_write
    (input_dict : list (string * ndarray))
    (output_expr : list (string * Callable))
    (batch_size num_timestamps : option nat) (prefix : option string)
    (filename : string) (data_dict : gmap string ndarray) :
  let vtu := VisualizerVtu_init input_dict output_expr batch_size
               num_timestamps prefix in
  let v3d := Visualizer3D_init input_dict output_expr batch_size
               num_timestamps prefix in
  VisualizerVtu_save vtu filename data_dict
    = Visualizer3D_save v3d filename data_dict ∧
  VisualizerVtu_save vtu filename data_dict
    = done_with [save_vtu_from_dict filename data_dict input_dict.*1
                   output_expr.*1 (default 1%nat num_timestamps)] ∧
  Visualize.input_dict vtu = Visualize.input_dict v3d ∧
  input_keys vtu = input_keys v3d ∧
  Visualize.output_expr vtu = Visualize.output_expr v3d ∧
  output_keys vtu = output_keys v3d ∧
  Visualize.batch_size vtu = Visualize.batch_size v3d ∧
  Visualize.num_timestamps vtu = Visualize.num_timestamps v3d ∧
  Visualize.prefix vtu = default "vtu" prefix ∧
  Visualize.prefix v3d = default "plot3d" prefix.
Proof. repeat split. Qed.

(** *** C10: entries outside the output keys *)

(** C10: two data dictionaries that agree on every output key make the 3-D
    scatter adapter and the 2-D plot adapter do exactly the same: the same
    writer calls with the same arguments, and the same exception if any. *)
Theorem save_depends_on_output_entries_only (keys : list string)
    (filename : string) (d1 d2 : gmap string ndarray) :
  (∀ key, key ∈ keys → d1 !! key = d2 !! key) →
  (∀ self : Visualizer,
     output_keys self = keys →
     VisualizerScatter3D_save self filename d1
       = VisualizerScatter3D_save self filename d2) ∧
  (∀ self : Visualizer2DPlot,
     output_keys (plot2d_base self) = keys →
     Visualizer2DPlot_save self filename d1
       = Visualizer2DPlot_save self filename d2).
Proof.
  intros Hagree. split; intros self <-.
  - rewrite !VisualizerScatter3D_save_by_rank. unfold save_by_rank.
    by rewrite (select_outputs_agree _ d1 d2 Hagree).
  - rewrite !Visualizer2DPlot_save_by_rank. unfold save_by_rank.
    by rewrite (select_outputs_agree _ d1 d2 Hagree).
Qed.

(** *** More on the plotting adapters: errors, empty batches, what a call
    carries *)

(** The file name and the dictionary a writer call was given. *)
Definition call_filename (c : writer_call) : string :=
  match c with
  | save_plot_from_1d_dict name _ _ _ _
  | save_plot_from_3d_dict name _ _ _
  | save_vtu_from_dict name _ _ _ _
  | save_plot_from_2d_dict name _ _ _ _ _ _ => name
  end.

Definition call_data (c : writer_call) : gmap string ndarray :=
  match c with
  | save_plot_from_1d_dict _ d _ _ _
  | save_plot_from_3d_dict _ d _ _
  | save_vtu_from_dict _ d _ _ _
  | save_plot_from_2d_dict _ d _ _ _ _ _ => d
  end.

Lemma index_all_lookup (i : nat) (data_dict cur : gmap string ndarray)
    (key : string) :
  index_all i data_dict = Some cur →
  cur !! key = data_dict !! key ≫= (fun value => getitem value i).
Proof.
  unfold index_all. case_decide; [|done]. intros [= <-]. apply lookup_omap.
Qed.

Lemma getitem_shape (value item : ndarray) (i : nat) :
  getitem value i = Some item →
  ∃ n, shape value = n :: shape item ∧ (i < n)%nat.
Proof.
  unfold getitem. destruct (shape value) as [|n rest]; [done|].
  case_decide; [|done]. intros [= <-]. by exists n.
Qed.

(** Whether or not the loop raises, every call it made is the writer applied
    to the name of an index and to that index's slices. *)
Lemma for_each_batch_calls
    (writer : string → gmap string ndarray → writer_call)
    (filename : string) (data_dict : gmap string ndarray)
    (indices : list nat) (call : writer_call) :
  call ∈ calls (for_each_batch writer filename data_dict indices) →
  ∃ i cur, i ∈ indices ∧ index_all i data_dict = Some cur ∧
           call = writer (filename +:+ pretty i) cur.
Proof.
  induction indices as [|i0 indices IH]; simpl; [by intros ?%elem_of_nil|].
  destruct (index_all i0 data_dict) as [cur|] eqn:Hcur; simpl;
    [|by intros ?%elem_of_nil].
  intros [->|Hin]%elem_of_cons.
  - exists i0, cur. repeat split; [by left|done].
  - destruct (IH Hin) as (i & cur' & Hi & Hcur' & ->).
    exists i, cur'. repeat split; [by right|done].
Qed.

(** The loop can only raise [IndexError], and then it has made fewer calls
    than there are indices. *)
Lemma for_each_batch_raises
    (writer : string → gmap string ndarray → writer_call)
    (filename : string) (data_dict : gmap string ndarray)
    (indices : list nat) (e : exn) :
  raised (for_each_batch writer filename data_dict indices) = Some e →
  e = IndexError ∧
  (length (calls (for_each_batch writer filename data_dict indices))
   < length indices)%nat.
Proof.
  induction indices as [|i0 indices IH]; simpl; [done|].
  destruct (index_all i0 data_dict) as [cur|]; simpl.
  - intros Hr. destruct (IH Hr) as [-> Hlt]. split; [done|lia].
  - intros [= <-]. split; [done|lia].
Qed.

(** The names of the calls of a loop that returns. *)
Lemma for_each_batch_names
    (writer : string → gmap string ndarray → writer_call)
    (filename : string) (data_dict : gmap string ndarray) (indices : list nat) :
  (∀ name d, call_filename (writer name d) = name) →
  raised (for_each_batch writer filename data_dict indices) = None →
  call_filename <$> calls (for_each_batch writer filename data_dict indices)
  = (fun i => filename +:+ pretty i) <$> indices.
Proof.
  intros Hname. induction indices as [|i0 indices IH]; [done|].
  cbn [for_each_batch].
  destruct (index_all i0 data_dict) as [cur|]; cbn [calls raised]; [|done].
  intros Hok. rewrite !fmap_cons, Hname. f_equal. by apply IH.
Qed.

Lemma batch_name_inj (filename : string) :
  Inj (=) (=) (fun i : nat => filename +:+ pretty i).
Proof.
  intros i j Heq. apply (inj (String.app filename)) in Heq.
  by apply (inj pretty) in Heq.
Qed.

(** What the dispatch does when the first output key has no entry, and when
    there is no output key at all. *)
Lemma save_by_rank_missing_key (rank : nat)
    (writer : string → gmap string ndarray → writer_call)
    (keys : list string) (filename : string)
    (data_dict : gmap string ndarray) (key0 : string) :
  keys !! 0%nat = Some key0 →
  data_dict !! key0 = None →
  save_by_rank rank writer keys filename data_dict = raising (KeyError key0).
Proof.
  intros Hkey Hnone. unfold save_by_rank. rewrite Hkey.
  rewrite select_outputs_lookup_in by (by eapply list_elem_of_lookup_2).
  by rewrite Hnone.
Qed.

(** Every call of the dispatch carries entries of [data_dict] under output
    keys only. *)
Lemma save_by_rank_calls (rank : nat)
    (writer : string → gmap string ndarray → writer_call)
    (keys : list string) (filename : string)
    (data_dict : gmap string ndarray) (call : writer_call) :
  call ∈ calls (save_by_rank rank writer keys filename data_dict) →
  ∃ name cur,
    call = writer name cur ∧
    ∀ key, is_Some (cur !! key) → key ∈ keys ∧ is_Some (data_dict !! key).
Proof.
  unfold save_by_rank.
  destruct (keys !! 0%nat) as [key0|]; [|by intros ?%elem_of_nil].
  destruct (select_outputs keys data_dict !! key0) as [value|];
    [|by intros ?%elem_of_nil].
  case_decide.
  - intros Hcall. apply for_each_batch_calls in Hcall
      as (i & cur & _ & Hcur & ->).
    exists (filename +:+ pretty i), cur. split; [done|].
    intros key [item Hitem].
    rewrite (index_all_lookup _ _ _ _ Hcur) in Hitem.
    destruct (select_outputs keys data_dict !! key) as [v|] eqn:Hv; [|done].
    apply select_outputs_lookup_Some in Hv as [Hin Hv]. eauto.
  - simpl. intros ->%list_elem_of_singleton.
    exists filename, (select_outputs keys data_dict). split; [done|].
    intros key [v Hv].
    apply select_outputs_lookup_Some in Hv as [Hin Hv]. eauto.
Qed.

(** When the first output key has no entry in [data_dict], both plotting
    adapters raise [KeyError] for that key and write nothing. *)
Theorem save_missing_first_output_key (filename : string)
    (data_dict : gmap string ndarray) (key0 : string) :
  data_dict !! key0 = None →
  (∀ self : Visualizer,
     output_keys self !! 0%nat = Some key0 →
     VisualizerScatter3D_save self filename data_dict
       = raising (KeyError key0)) ∧
  (∀ self : Visualizer2DPlot,
     output_keys (plot2d_base self) !! 0%nat = Some key0 →
     Visualizer2DPlot_save self filename data_dict
       = raising (KeyError key0)).
Proof.
  intros Hnone. split; intros self Hkey.
  - rewrite VisualizerScatter3D_save_by_rank.
    by apply save_by_rank_missing_key.
  - rewrite Visualizer2DPlot_save_by_rank.
    by apply save_by_rank_missing_key.
Qed.

(** A visualizer without output keys cannot save: [self.output_keys[0]]
    raises [IndexError] whatever the data, and nothing is written. *)
Theorem save_without_output_keys (filename : string)
    (data_dict : gmap string ndarray) :
  (∀ self : Visualizer,
     output_keys self = [] →
     VisualizerScatter3D_save self filename data_dict = raising IndexError) ∧
  (∀ self : Visualizer2DPlot,
     output_keys (plot2d_base self) = [] →
     Visualizer2DPlot_save self filename data_dict = raising IndexError).
Proof.
  split; intros self Hkeys.
  - unfold VisualizerScatter3D_save. by rewrite Hkeys.
  - unfold Visualizer2DPlot_save. by rewrite Hkeys.
Qed.

(** A batched value with an empty first axis (shape (0, T, 3), or
    (0, T, H, W) for the 2-D plot) makes [save] return without any writer
    call and without an error. *)
Theorem save_empty_batch (filename : string)
    (data_dict : gmap string ndarray) (key0 : string) (value : ndarray)
    (rest : list nat) :
  data_dict !! key0 = Some value →
  shape value = 0%nat :: rest →
  (∀ self : Visualizer,
     output_keys self !! 0%nat = Some key0 →
     length rest = 2%nat →
     VisualizerScatter3D_save self filename data_dict = done_with []) ∧
  (∀ self : Visualizer2DPlot,
     output_keys (plot2d_base self) !! 0%nat = Some key0 →
     length rest = 3%nat →
     Visualizer2DPlot_save self filename data_dict = done_with []).
Proof.
  intros Hvalue Hshape. split; intros self Hkey Hrest.
  - rewrite VisualizerScatter3D_save_by_rank.
    rewrite (save_by_rank_batched 3 _ _ _ _ key0 value 0 rest); try done.
    simpl. by rewrite Hrest.
  - rewrite Visualizer2DPlot_save_by_rank.
    rewrite (save_by_rank_batched 4 _ _ _ _ key0 value 0 rest); try done.
    simpl. by rewrite Hrest.
Qed.


(** In a batched 3-D scatter save that returns, the dictionary of call [i]
    has the keys of the filtered dictionary, and under each key the array
    [value[i]]: the original with its first axis removed. *)
Theorem VisualizerScatter3D_save_batch_slices (self : Visualizer)
    (filename : string) (data_dict : gmap string ndarray)
    (key0 : string) (value : ndarray) (B T : nat) :
  output_keys self !! 0%nat = Some key0 →
  data_dict !! key0 = Some value →
  shape value = [B; T; 3%nat] →
  raised (VisualizerScatter3D_save self filename data_dict) = None →
  ∀ i, (i < B)%nat →
    ∃ call,
      calls (VisualizerScatter3D_save self filename data_dict) !! i
        = Some call ∧
      (∀ key,
         select_outputs (output_keys self) data_dict !! key = None →
         call_data call !! key = None) ∧
      (∀ key v,
         select_outputs (output_keys self) data_dict !! key = Some v →
         ∃ item n,
           call_data call !! key = Some item ∧
           getitem v i = Some item ∧
           shape v = n :: shape item).
Proof.
  intros Hkey Hvalue Hshape.
  rewrite VisualizerScatter3D_save_by_rank.
  rewrite (save_by_rank_batched 3 _ _ _ _ key0 value B [T; 3%nat]) by done.
  intros Hok i Hi. apply for_each_batch_returns in Hok as [_ Hcalls].
  destruct (Hcalls i i) as (cur & Hcur & Hcall); [by apply lookup_seq_lt|].
  eexists. split; [exact Hcall|]. simpl. split.
  - intros key Hnone. by rewrite (index_all_lookup _ _ _ _ Hcur), Hnone.
  - intros key v Hv.
    pose proof (index_all_lookup _ _ _ key Hcur) as Hlook.
    rewrite Hv in Hlook. simpl in Hlook.
    unfold index_all in Hcur. case_decide as Hall; [|done].
    destruct (Hall key v Hv) as [item Hitem].
    destruct (getitem_shape _ _ _ Hitem) as (n & Hn & _).
    exists item, n. by rewrite Hlook.
Qed.

(** The files of a batched save that returns are named
    [filename + str(0)], ..., [filename + str(B - 1)], in this order, and no
    two of them share a name. *)
Theorem batched_save_file_names (filename : string)
    (data_dict : gmap string ndarray) (key0 : string) (value : ndarray)
    (B : nat) (rest : list nat) :
  data_dict !! key0 = Some value →
  shape value = B :: rest →
  (∀ self : Visualizer,
     output_keys self !! 0%nat = Some key0 →
     length rest = 2%nat →
     raised (VisualizerScatter3D_save self filename data_dict) = None →
     call_filename <$> calls (VisualizerScatter3D_save self filename data_dict)
       = (fun i => filename +:+ pretty i) <$> seq 0 B ∧
     NoDup (call_filename
              <$> calls (VisualizerScatter3D_save self filename data_dict))) ∧
  (∀ self : Visualizer2DPlot,
     output_keys (plot2d_base self) !! 0%nat = Some key0 →
     length rest = 3%nat →
     raised (Visualizer2DPlot_save self filename data_dict) = None →
     call_filename <$> calls (Visualizer2DPlot_save self filename data_dict)
       = (fun i => filename +:+ pretty i) <$> seq 0 B ∧
     NoDup (call_filename
              <$> calls (Visualizer2DPlot_save self filename data_dict))).
Proof.
  intros Hvalue Hshape. split; intros self Hkey Hrest.
  - rewrite VisualizerScatter3D_save_by_rank.
    rewrite (save_by_rank_batched 3 _ _ _ _ key0 value B rest);
      [|done|done|done|simpl; by rewrite Hrest].
    intros Hok. rewrite for_each_batch_names; [|done|exact Hok].
    split; [done|].
    apply (@NoDup_fmap_2 _ _ _ (batch_name_inj filename)), NoDup_seq.
  - rewrite Visualizer2DPlot_save_by_rank.
    rewrite (save_by_rank_batched 4 _ _ _ _ key0 value B rest);
      [|done|done|done|simpl; by rewrite Hrest].
    intros Hok. rewrite for_each_batch_names; [|done|exact Hok].
    split; [done|].
    apply (@NoDup_fmap_2 _ _ _ (batch_name_inj filename)), NoDup_seq.
Qed.

(** The loop never makes more calls than there are indices. *)
Lemma for_each_batch_length
    (writer : string → gmap string ndarray → writer_call)
    (filename : string) (data_dict : gmap string ndarray) (indices : list nat) :
  (length (calls (for_each_batch writer filename data_dict indices))
   ≤ length indices)%nat.
Proof.
  induction indices as [|i0 indices IH]; simpl; [done|].
  destruct (index_all i0 data_dict); simpl; lia.
Qed.

Lemma save_by_rank_failure (rank : nat)
    (writer : string → gmap string ndarray → writer_call)
    (response : writer_call → option exn)
    (keys : list string) (filename : string)
    (data_dict : gmap string ndarray) (key0 : string) (value : ndarray)
    (e : exn) :
  keys !! 0%nat = Some key0 →
  data_dict !! key0 = Some value →
  failure (perform response (save_by_rank rank writer keys filename data_dict))
    = Some e →
  ((∃ call, call ∈ calls (save_by_rank rank writer keys filename data_dict) ∧
            response call = Some e)
   ∨ (e = IndexError ∧ length (shape value) = rank)) ∧
  (length (shape value) = rank →
   (length (written (perform response
                       (save_by_rank rank writer keys filename data_dict)))
    < default 0 (shape value !! 0))%nat).
Proof.
  intros Hkey Hvalue. unfold perform, save_by_rank. rewrite Hkey.
  rewrite select_outputs_lookup_in by (by eapply list_elem_of_lookup_2).
  rewrite Hvalue. case_decide as Hrank.
  - intros Hfail.
    pose proof (for_each_batch_length writer filename
                  (select_outputs keys data_dict)
                  (seq 0 (default 0%nat (shape value !! 0%nat)))) as Hle.
    rewrite length_seq in Hle.
    destruct (perform_calls_failure _ _ _ _ Hfail)
      as [(call & Hin & Hcall & Hlt)|[Hend Hall]].
    + split; [left; by exists call|]. intros _. lia.
    + apply for_each_batch_raises in Hend as [-> Hlt].
      rewrite length_seq in Hlt. rewrite Hall.
      split; [by right|]. intros _. exact Hlt.
  - intros Hfail.
    destruct (perform_calls_failure _ _ _ _ Hfail)
      as [(call & Hin & Hcall & Hlt)|[Hend Hall]]; [|done].
    split; [left; by exists call|]. intros Heq. by destruct Hrank.
Qed.

(** Once the value under the first output key is found, a plotting save can
    fail in two ways only: a writer raises in one of the calls the adapter
    makes (the adapter does not catch it), or a [value[i]] in the batch loop
    raises [IndexError], which happens only on a value of the batched rank.
    When a save of a value of the batched rank fails, fewer files than the
    first axis is long have been written: the save is not all-or-nothing.
    This holds whatever the writers do. *)
Theorem save_fails_by_writer_or_batch_loop
    (response : writer_call → option exn) (filename : string)
    (data_dict : gmap string ndarray) (key0 : string) (value : ndarray)
    (e : exn) :
  data_dict !! key0 = Some value →
  (∀ self : Visualizer,
     output_keys self !! 0%nat = Some key0 →
     failure (perform response
                (VisualizerScatter3D_save self filename data_dict)) = Some e →
     ((∃ call,
         call ∈ calls (VisualizerScatter3D_save self filename data_dict) ∧
         response call = Some e)
      ∨ (e = IndexError ∧ length (shape value) = 3%nat)) ∧
     (length (shape value) = 3%nat →
      (length (written (perform response
                          (VisualizerScatter3D_save self filename data_dict)))
       < default 0 (shape value !! 0))%nat)) ∧
  (∀ self : Visualizer2DPlot,
     output_keys (plot2d_base self) !! 0%nat = Some key0 →
     failure (perform response
                (Visualizer2DPlot_save self filename data_dict)) = Some e →
     ((∃ call,
         call ∈ calls (Visualizer2DPlot_save self filename data_dict) ∧
         response call = Some e)
      ∨ (e = IndexError ∧ length (shape value) = 4%nat)) ∧
     (length (shape value) = 4%nat →
      (length (written (perform response
                          (Visualizer2DPlot_save self filename data_dict)))
       < default 0 (shape value !! 0))%nat)).
Proof.
  intros Hvalue. split; intros self Hkey.
  - rewrite VisualizerScatter3D_save_by_rank.
    exact (save_by_rank_failure 3 _ _ _ _ _ key0 value e Hkey Hvalue).
  - rewrite Visualizer2DPlot_save_by_rank.
    exact (save_by_rank_failure 4 _ _ _ _ _ key0 value e Hkey Hvalue).
Qed.

(** Whatever [data_dict] holds and however the save ends, a plot writer is
    only ever handed entries under output keys that [data_dict] has: no other
    key of [data_dict] reaches a writer. *)
Theorem writer_sees_output_keys_only (filename : string)
    (data_dict : gmap string ndarray) (call : writer_call) (key : string) :
  is_Some (call_data call !! key) →
  (∀ self : Visualizer,
     call ∈ calls (VisualizerScatter3D_save self filename data_dict) →
     key ∈ output_keys self ∧ is_Some (data_dict !! key)) ∧
  (∀ self : Visualizer2DPlot,
     call ∈ calls (Visualizer2DPlot_save self filename data_dict) →
     key ∈ output_keys (plot2d_base self) ∧ is_Some (data_dict !! key)).
Proof.
  intros Hsome. split; intros self Hcall.
  - rewrite VisualizerScatter3D_save_by_rank in Hcall.
    apply save_by_rank_calls in Hcall as (name & cur & -> & Hcur).
    by apply Hcur.
  - rewrite Visualizer2DPlot_save_by_rank in Hcall.
    apply save_by_rank_calls in Hcall as (name & cur & -> & Hcur).
    by apply Hcur.
Qed.

End Visualize.

(** *** Concrete arrays and dictionaries *)

(** An array of zeros of a given shape. *)
Definition zeros (sh : list nat) : ndarray (A:=Z) :=
  {| shape := sh; data := replicate (size_of sh) 0 |}.

(** A 3-D scatter visualizer with the single output "states", and a 2-D plot
    visualizer with the single output "pred"; all other arguments default. *)
Definition scatter_states : Visualizer (A:=Z) unit :=
  VisualizerScatter3D_init unit [] [("states", tt)] None None None.


Lemma VisualizerScatter3D_save_file_count_witness :
  length (calls (VisualizerScatter3D_save unit scatter_states "out"
                   {[ "states" := zeros [2; 5; 3]%nat ]})) = 2%nat ∧
  VisualizerScatter3D_save unit scatter_states "out"
    {[ "states" := zeros [5; 3]%nat ]} =
  done_with [save_plot_from_3d_dict "out"
               (select_outputs ["states"] {[ "states" := zeros [5; 3]%nat ]})
               ["states"] 1].
Proof.
  split.
  - destruct (VisualizerScatter3D_save_file_count unit scatter_states "out"
                {[ "states" := zeros [2; 5; 3]%nat ]} "states"
                (zeros [2; 5; 3]%nat) eq_refl (lookup_singleton_eq _ _))
      as [Hbatched _].
    destruct (Hbatched 2%nat 5%nat eq_refl) as [Hcount Hreturns].
    apply Hcount, Hreturns.
    intros key v Hkey Hv. apply list_elem_of_singleton in Hkey as ->.
    vm_compute in Hv. injection Hv as <-.
    exists 2%nat, [5; 3]%nat. split; [reflexivity|lia].
  - destruct (VisualizerScatter3D_save_file_count unit scatter_states "out"
                {[ "states" := zeros [5; 3]%nat ]} "states"
                (zeros [5; 3]%nat) eq_refl (lookup_singleton_eq _ _))
      as [_ Hflat].
    exact (Hflat 5%nat eq_refl).
Defined.


(** The supported shapes go through: a (5, 3) value is written in one file,
    a (2, 5, 3) value in two. *)
Example save_supported_ranks_written :
  perform plot_writer
    (VisualizerScatter3D_save unit scatter_states "out"
       {[ "states" := zeros [5; 3]%nat ]})
  = {| written := [save_plot_from_3d_dict "out"
                     {[ "states" := zeros [5; 3]%nat ]} ["states"] 1];
       failure := None |} ∧
  call_filename
    <$> written (perform plot_writer
                   (VisualizerScatter3D_save unit scatter_states "out"
                      {[ "states" := zeros [2; 5; 3]%nat ]}))
  = ["out0"; "out1"] ∧
  failure (perform plot_writer
             (VisualizerScatter3D_save unit scatter_states "out"
                {[ "states" := zeros [2; 5; 3]%nat ]})) = None.
Proof. vm_compute. done. Qed.

(** Two output arrays whose first axes disagree: the loop writes the file of
    batch element 0 and raises on element 1. *)
Example save_unequal_batches_raises :
  let r := VisualizerScatter3D_save unit
             (VisualizerScatter3D_init unit [] [("a", tt); ("b", tt)]
                None None None)
             "out"
             (<[ "a" := zeros [2; 5; 3]%nat ]>
                {[ "b" := zeros [1; 5; 3]%nat ]}) in
  length (calls r) = 1%nat ∧ raised r = Some IndexError.
Proof. vm_compute. done. Qed.

Lemma save_depends_on_output_entries_only_witness :
  VisualizerScatter3D_save unit scatter_states "out"
    (<[ "states" := zeros [2; 5; 3]%nat ]> {[ "x" := zeros [4]%nat ]})
  = VisualizerScatter3D_save unit scatter_states "out"
      (<[ "states" := zeros [2; 5; 3]%nat ]>
         (<[ "x" := zeros [9; 9]%nat ]> {[ "y" := zeros [1]%nat ]})).
Proof.
  apply (save_depends_on_output_entries_only unit ["states"] "out"
           (<[ "states" := zeros [2; 5; 3]%nat ]> {[ "x" := zeros [4]%nat ]})
           (<[ "states" := zeros [2; 5; 3]%nat ]>
              (<[ "x" := zeros [9; 9]%nat ]> {[ "y" := zeros [1]%nat ]}))).
  - intros key Hkey. apply list_elem_of_singleton in Hkey as ->.
    vm_compute. reflexivity.
  - reflexivity.
Defined.

(** *** Concrete saves for the facts above *)


Definition scatter_a_b : Visualizer (A:=Z) unit :=
  VisualizerScatter3D_init unit [] [("a", tt); ("b", tt)] None None None.

Lemma save_missing_first_output_key_witness :
  VisualizerScatter3D_save unit scatter_states "out"
    {[ "x" := zeros [5; 3]%nat ]}
  = raising (KeyError "states").
Proof.
  apply (proj1 (save_missing_first_output_key unit "out"
                  {[ "x" := zeros [5; 3]%nat ]} "states"
                  (lookup_singleton_ne "x" "states" _ ltac:(discriminate)))
           scatter_states eq_refl).
Defined.

Lemma save_empty_batch_witness :
  VisualizerScatter3D_save unit scatter_states "out"
    {[ "states" := zeros [0; 5; 3]%nat ]}
  = done_with [].
Proof.
  apply (proj1 (save_empty_batch unit "out"
                  {[ "states" := zeros [0; 5; 3]%nat ]} "states"
                  (zeros [0; 5; 3]%nat) [5; 3]%nat
                  (lookup_singleton_eq _ _) eq_refl)
           scatter_states eq_refl eq_refl).
Defined.


Lemma VisualizerScatter3D_save_batch_slices_witness :
  ∃ call item n,
    calls (VisualizerScatter3D_save unit scatter_states "out"
             {[ "states" := zeros [2; 5; 3]%nat ]}) !! 1%nat = Some call ∧
    call_data call !! "states" = Some item ∧
    getitem (zeros [2; 5; 3]%nat) 1 = Some item ∧
    shape (zeros [2; 5; 3]%nat) = n :: shape item.
Proof.
  assert (raised (VisualizerScatter3D_save unit scatter_states "out"
                    {[ "states" := zeros [2; 5; 3]%nat ]}) = None) as Hok
    by (vm_compute; reflexivity).
  assert (1 < 2)%nat as Hlt by lia.
  destruct (VisualizerScatter3D_save_batch_slices unit scatter_states "out"
              {[ "states" := zeros [2; 5; 3]%nat ]} "states"
              (zeros [2; 5; 3]%nat) 2 5 eq_refl (lookup_singleton_eq _ _)
              eq_refl Hok 1%nat Hlt)
    as (call & Hcall & _ & Hsome).
  destruct (Hsome "states" (zeros [2; 5; 3]%nat)) as (item & n & H1 & H2 & H3).
  { rewrite select_outputs_lookup_in by (by left).
    apply lookup_singleton_eq. }
  exists call, item, n. repeat split; assumption.
Defined.

Lemma batched_save_file_names_witness :
  call_filename
    <$> calls (VisualizerScatter3D_save unit scatter_states "out"
                 {[ "states" := zeros [2; 5; 3]%nat ]})
  = (fun i => "out" +:+ pretty i) <$> seq 0 2.
Proof.
  assert (raised (VisualizerScatter3D_save unit scatter_states "out"
                    {[ "states" := zeros [2; 5; 3]%nat ]}) = None) as Hok
    by (vm_compute; reflexivity).
  destruct (batched_save_file_names unit "out"
              {[ "states" := zeros [2; 5; 3]%nat ]} "states"
              (zeros [2; 5; 3]%nat) 2 [5; 3]%nat
              (lookup_singleton_eq _ _) eq_refl) as [Hscatter _].
  exact (proj1 (Hscatter scatter_states eq_refl eq_refl Hok)).
Defined.

(** Two outputs whose first axes disagree: the file of batch element 0 is
    written, then [value[1]] raises. *)
Lemma save_fails_by_writer_or_batch_loop_witness :
  (length (written (perform plot_writer
                      (VisualizerScatter3D_save unit scatter_a_b "out"
                         (<[ "a" := zeros [2; 5; 3]%nat ]>
                            {[ "b" := zeros [1; 5; 3]%nat ]}))))
   < 2)%nat.
Proof.
  assert (failure (perform plot_writer
                     (VisualizerScatter3D_save unit scatter_a_b "out"
                        (<[ "a" := zeros [2; 5; 3]%nat ]>
                           {[ "b" := zeros [1; 5; 3]%nat ]})))
          = Some IndexError)
    as Hfailed by (vm_compute; reflexivity).
  destruct (save_fails_by_writer_or_batch_loop unit plot_writer "out"
              (<[ "a" := zeros [2; 5; 3]%nat ]>
                 {[ "b" := zeros [1; 5; 3]%nat ]}) "a"
              (zeros [2; 5; 3]%nat) IndexError (lookup_insert_eq _ _ _))
    as [Hscatter _].
  exact (proj2 (Hscatter scatter_a_b eq_refl Hfailed) eq_refl).
Defined.

Lemma writer_sees_output_keys_only_witness :
  "states" ∈ output_keys _ scatter_states ∧
  is_Some ((<[ "states" := zeros [5; 3]%nat ]> {[ "x" := zeros [4]%nat ]}
            : gmap string ndarray) !! "states").
Proof.
  apply (proj1 (writer_sees_output_keys_only unit "out"
                  (<[ "states" := zeros [5; 3]%nat ]>
                     {[ "x" := zeros [4]%nat ]})
                  (save_plot_from_3d_dict "out"
                     {[ "states" := zeros [5; 3]%nat ]} ["states"] 1)
                  "states"
                  (mk_is_Some _ _ (lookup_singleton_eq _ _)))
           scatter_states).
  replace (calls (VisualizerScatter3D_save unit scatter_states "out"
                    (<[ "states" := zeros [5; 3]%nat ]>
                       {[ "x" := zeros [4]%nat ]})))
    with [save_plot_from_3d_dict "out"
            ({[ "states" := zeros [5; 3]%nat ]} : gmap string ndarray)
            ["states"] 1]
    by (vm_compute; reflexivity).
  by left.
Defined.

End Visualize.
